(** * Hardware video-decode probes: [v4l2test] and [mpptest]

    A shallow embedding of the two probe utilities

      - widget/gtk/v4l2test/v4l2test.cpp  (V4L2 memory-to-memory device probe)
      - widget/gtk/mpptest/mpptest.cpp    (Rockchip MPP library probe)

    Each program is a straight-line sequence of calls into the operating
    system or into a loaded library.  The programs are embedded as
    computations in a small state monad: the state carries the result pipe
    and the list of external calls made so far, and the answers of the
    outside world (the device driver, the dynamic loader, the vendor
    library) are parameters of the run.  The diagnostic log ([log],
    [enable_logging], [close_logging]) goes to a channel of its own and is
    left out. *)

From Stdlib Require Import ZArith List String Ascii Bool Lia DecimalString.
Import ListNotations.
Open Scope Z_scope.

(** ** Runs of a program *)

(** A run either returns a value in a new state, or executes an operation
    whose behaviour C leaves undefined, or is cut off inside a loop that the
    source does not bound. *)
Inductive outcome (St A : Type) : Type :=
| Done (a : A) (s : St)
| Undefined
| OutOfFuel.

Arguments Done {St A} a s.
Arguments Undefined {St A}.
Arguments OutOfFuel {St A}.

Definition run (St A : Type) : Type := St -> outcome St A.

Definition ret {St A : Type} (a : A) : run St A := fun s => Done a s.

Definition bind {St A B : Type} (m : run St A) (k : A -> run St B) : run St B :=
  fun s =>
    match m s with
    | Done a s' => k a s'
    | Undefined => Undefined
    | OutOfFuel => OutOfFuel
    end.

Definition undefined {St A : Type} : run St A := fun _ => Undefined.
Definition out_of_fuel {St A : Type} : run St A := fun _ => OutOfFuel.
Definition modify {St : Type} (f : St -> St) : run St unit := fun s => Done tt (f s).
Definition gets {St A : Type} (f : St -> A) : run St A := fun s => Done (f s) s.

Definition exit_status {St : Type} (o : outcome St Z) : option Z :=
  match o with Done code _ => Some code | _ => None end.

Declare Scope run_scope.
Delimit Scope run_scope with run.
Notation "x <- c1 ;; c2" := (bind c1 (fun x => c2))
  (at level 100, c1 at next level, right associativity) : run_scope.
Notation "' pat <- c1 ;; c2" := (bind c1 (fun x => match x with pat => c2 end))
  (at level 100, pat pattern, c1 at next level, right associativity) : run_scope.
Notation "c1 ;; c2" := (bind c1 (fun _ => c2))
  (at level 100, right associativity) : run_scope.
Open Scope run_scope.

(** ** Constants shared by the two programs *)

Definition EXIT_SUCCESS : Z := 0.
Definition EXIT_FAILURE : Z := 1.

(** [HwAccelCodec], declared identically in both files. *)
Definition CODEC_HW_H264 : Z := Z.shiftl 1 4.
Definition CODEC_HW_VP8 : Z := Z.shiftl 1 5.
Definition CODEC_HW_VP9 : Z := Z.shiftl 1 6.
Definition CODEC_HW_AV1 : Z := Z.shiftl 1 7.

(** ** The result pipe of mozilla/GfxInfoUtils.h *)

Module GfxInfoUtils.

Definition nl : string := String (ascii_of_nat 10) EmptyString.

(** One variadic argument as the callers pass it. *)
Inductive va_arg : Type :=
| VaInt (z : Z)
| VaStr (s : string).

Definition decimal (z : Z) : string := NilZero.string_of_int (Z.to_int z).

(** The conversions of [vsnprintf] that the probes use.  [%s] takes a
    string and copies it, [%d] takes an [int] and prints it in decimal,
    [%%] prints a percent sign.  A conversion applied to an argument of
    another type, or to no argument, has no defined result. *)
Fixpoint vformat (fmt : string) (args : list va_arg) : option string :=
  match fmt with
  | EmptyString => Some EmptyString
  | String c rest =>
      if Ascii.eqb c "%"%char then
        match rest with
        | EmptyString => None
        | String d rest' =>
            if Ascii.eqb d "s"%char then
              match args with
              | VaStr s :: args' => option_map (append s) (vformat rest' args')
              | _ => None
              end
            else if Ascii.eqb d "d"%char then
              match args with
              | VaInt z :: args' =>
                  option_map (append (decimal z)) (vformat rest' args')
              | _ => None
              end
            else if Ascii.eqb d "%"%char then
              option_map (String "%"%char) (vformat rest' args)
            else None
        end
      else option_map (String c) (vformat rest args)
  end.

(** The pipe: the values recorded so far, one entry per [record_value]
    call, and the blocks already written to the output channel. *)
Record pipe : Type := mkPipe {
  recorded : list string;
  written : list string
}.

Definition empty_pipe : pipe := mkPipe [] [].

Section Pipe.
Context {St : Type}.
Variable get_pipe : St -> pipe.
Variable set_pipe : pipe -> St -> St.

(** Modelled from the spec: [record_value] of mozilla/GfxInfoUtils.h,
    which is not part of the sources at hand.  It formats its arguments
    and appends the text to the pending results. *)
Definition record_value (fmt : string) (args : list va_arg) : run St unit :=
  match vformat fmt args with
  | Some text =>
      modify (fun s =>
        let p := get_pipe s in
        set_pipe (mkPipe (recorded p ++ [text]) (written p)) s)
  | None => undefined
  end.

(** Modelled from the spec: [record_error] of mozilla/GfxInfoUtils.h.
    It records the formatted message under the ERROR key. *)
Definition record_error (fmt : string) (args : list va_arg) : run St unit :=
  match vformat fmt args with
  | Some msg => record_value ("ERROR" ++ nl ++ "%s" ++ nl) [VaStr msg]
  | None => undefined
  end.

(** Modelled from the spec: [record_flush] of mozilla/GfxInfoUtils.h.
    It writes everything recorded so far to the output channel, as one
    block. *)
Definition record_flush : run St unit :=
  modify (fun s =>
    let p := get_pipe s in
    set_pipe (mkPipe (recorded p) (written p ++ [concat "" (recorded p)])) s).
End Pipe.

End GfxInfoUtils.

(** ** v4l2test: the V4L2 memory-to-memory device probe *)

Module V4L2Test.
Import GfxInfoUtils.

(** *** Constants of linux/videodev2.h *)

Definition v4l2_fourcc (a b c d : ascii) : Z :=
  Z.lor (Z.of_N (N_of_ascii a))
    (Z.lor (Z.shiftl (Z.of_N (N_of_ascii b)) 8)
       (Z.lor (Z.shiftl (Z.of_N (N_of_ascii c)) 16)
          (Z.shiftl (Z.of_N (N_of_ascii d)) 24))).

Definition V4L2_PIX_FMT_H264 : Z := v4l2_fourcc "H" "2" "6" "4".
Definition V4L2_PIX_FMT_NV12 : Z := v4l2_fourcc "N" "V" "1" "2".
Definition V4L2_PIX_FMT_YVU420 : Z := v4l2_fourcc "Y" "V" "1" "2".

Definition V4L2_CAP_VIDEO_M2M_MPLANE : Z := 0x00004000.
Definition V4L2_CAP_VIDEO_M2M : Z := 0x00008000.
Definition V4L2_CAP_STREAMING : Z := 0x04000000.
Definition V4L2_CAP_DEVICE_CAPS : Z := 0x80000000.

Definition V4L2_BUF_TYPE_VIDEO_CAPTURE : Z := 1.
Definition V4L2_BUF_TYPE_VIDEO_OUTPUT : Z := 2.
Definition V4L2_BUF_TYPE_VIDEO_CAPTURE_MPLANE : Z := 9.
Definition V4L2_BUF_TYPE_VIDEO_OUTPUT_MPLANE : Z := 10.

(** *** The device behind the path *)

(** What the kernel answers for one device node.  [open_ret] is the value
    of [open]: a descriptor, or a negative number with [open_strerror] the
    text of [strerror(errno)].  [querycap_ret] is the value of the
    VIDIOC_QUERYCAP request, which fills in [capabilities] and
    [device_caps].  [enum_fmt ty index] is the answer to VIDIOC_ENUM_FMT
    for queue type [ty] at [index]: the value of [ioctl] and the
    [pixelformat] left in the descriptor. *)
Record device : Type := mkDevice {
  open_ret : Z;
  open_strerror : string;
  querycap_ret : Z;
  capabilities : Z;
  device_caps : Z;
  enum_fmt : Z -> Z -> Z * Z
}.

Inductive syscall : Type :=
| SysOpen (path : string)
| SysQueryCap (fd : Z)
| SysEnumFmt (fd ty index : Z)
| SysClose (fd : Z).

Record state : Type := mkState {
  out : pipe;
  calls : list syscall
}.

Definition initial : state := mkState empty_pipe [].

(** The variables of the enumeration loop: [fmt.index] and [supported]. *)
Record cursor : Type := mkCursor {
  index : Z;
  supported : Z
}.

Definition set_out (p : pipe) (s : state) : state := mkState p (calls s).
Definition called (c : syscall) : run state unit :=
  modify (fun s => mkState (out s) (calls s ++ [c])).

Definition record_value := GfxInfoUtils.record_value out set_out.
Definition record_error := GfxInfoUtils.record_error out set_out.
Definition record_flush := GfxInfoUtils.record_flush out set_out.

Section Probe.
Variable dev : device.

Definition sys_open (path : string) : run state Z :=
  called (SysOpen path) ;; ret (open_ret dev).

Definition sys_close (fd : Z) : run state unit := called (SysClose fd).

Definition ioctl_querycap (fd : Z) : run state Z :=
  called (SysQueryCap fd) ;; ret (querycap_ret dev).

Definition ioctl_enum_fmt (fd ty index : Z) : run state (Z * Z) :=
  called (SysEnumFmt fd ty index) ;; ret (enum_fmt dev ty index).

(** The [switch] on [fmt.pixelformat] in the body of the enumeration
    loop; the result is the new value of [supported]. *)
Definition fmt_switch (supported pixelformat : Z) : Z :=
  if pixelformat =? V4L2_PIX_FMT_H264 then Z.lor supported CODEC_HW_H264
  else if pixelformat =? V4L2_PIX_FMT_NV12 then 1
  else if pixelformat =? V4L2_PIX_FMT_YVU420 then 1
  else supported.

(** One pass of the body of the [for (fmt.index = 0;; fmt.index++)]
    loop at cursor [c], up to and including the increment.  The pass
    either leaves the loop through [break], with the value [supported]
    then has, or hands the cursor to the next pass.  [fmt.index] is a
    [__u32]. *)
Definition enum_pass (aFd aType : Z) (c : cursor) : run state (Z + cursor) :=
  '(result, pixelformat) <- ioctl_enum_fmt aFd aType (index c) ;;
  if result <? 0 then
    let supported := result in
    ret (inl supported)
  else
    ret (inr (mkCursor ((index c + 1) mod 2 ^ 32)
                (fmt_switch (supported c) pixelformat))).

(** The loop run for at most [n] passes from cursor [c]: the value it
    left with, or the cursor at which the next pass would start. *)
Fixpoint enum_passes (n : nat) (aFd aType : Z) (c : cursor)
  : run state (Z + cursor) :=
  match n with
  | O => ret (inr c)
  | S n' =>
      next <- enum_pass aFd aType c ;;
      match next with
      | inl supported => ret (inl supported)
      | inr c' => enum_passes n' aFd aType c'
      end
  end.

(** The loop entered with the current [fmt.index] and [supported].  It has
    no bound of its own, so the embedding counts passes: a loop still
    running after [fuel] of them is cut off. *)
Definition enum_loop (fuel : nat) (aFd aType index supported : Z)
  : run state Z :=
  next <- enum_passes fuel aFd aType (mkCursor index supported) ;;
  match next with
  | inl supported => ret supported
  | inr _ => out_of_fuel
  end.

Definition v4l2_supported_fmts (fuel : nat) (aFd aType : Z) : run state Z :=
  let supported := 0 in
  enum_loop fuel aFd aType 0 supported.

Definition test_bit (flags mask : Z) : bool := negb (Z.land flags mask =? 0).

(** The cleanup registered with [MakeScopeExit]; it reads [fd] when the
    function is left. *)
Definition autoRelease (fd : Z) : run state unit :=
  if 0 <=? fd then sys_close fd else ret tt.

Definition v4l2_check_device (fuel : nat) (aVideoDevice : string)
  : run state unit :=
  fd <- sys_open aVideoDevice ;;
  (if fd <? 0 then
     record_error "V4L2 failed to open device %s: %s"
       [VaStr aVideoDevice; VaStr (open_strerror dev)]
   else
     result <- ioctl_querycap fd ;;
     if result <? 0 then
       record_error "V4L2 device %s failed to query capabilities"
         [VaStr aVideoDevice]
     else if negb (test_bit (capabilities dev) V4L2_CAP_DEVICE_CAPS) then
       record_error "V4L2 device %s does not support DEVICE_CAPS"
         [VaStr aVideoDevice]
     else if negb (test_bit (device_caps dev) V4L2_CAP_STREAMING) then
       record_error "V4L2 device %s does not support V4L2_CAP_STREAMING"
         [VaStr aVideoDevice]
     else
       let splane := test_bit (device_caps dev) V4L2_CAP_VIDEO_M2M in
       let mplane := test_bit (device_caps dev) V4L2_CAP_VIDEO_M2M_MPLANE in
       if negb splane && negb mplane then
         record_error "V4L2 device %s does not support M2M modes"
           [VaStr aVideoDevice]
       else
         capture <- v4l2_supported_fmts fuel fd
                      (if mplane then V4L2_BUF_TYPE_VIDEO_CAPTURE_MPLANE
                       else V4L2_BUF_TYPE_VIDEO_CAPTURE) ;;
         if capture <=? 0 then
           record_error
             "V4L2 device %s does not support NV12 or YV12 capture formats"
             [VaStr aVideoDevice]
         else
           hwcodecs <- v4l2_supported_fmts fuel fd
                         (if mplane then V4L2_BUF_TYPE_VIDEO_OUTPUT_MPLANE
                          else V4L2_BUF_TYPE_VIDEO_OUTPUT) ;;
           record_value ("SUPPORTED" ++ nl ++ "TRUE" ++ nl) [] ;;
           record_value ("HWCODECS" ++ nl ++ "%s" ++ nl) [VaInt hwcodecs]) ;;
  autoRelease fd.

Definition usage : string :=
  "Firefox V4L2-M2M probe utility" ++ nl ++
  nl ++
  "usage: v4l2test [options]" ++ nl ++
  nl ++
  "Options:" ++ nl ++
  nl ++
  "  -h --help                 show this message" ++ nl ++
  "  -d --device device        Probe a v4l2 device (e.g. /dev/video10)" ++ nl ++
  nl.

Definition PrintUsage : run state unit :=
  modify (fun s => mkState (mkPipe (recorded (out s)) (written (out s) ++ [usage]))
                     (calls s)).

(** [main] after the [getopt_long] loop, whose result is [device]: the
    argument of the last [-d] or [--device] option, if any. *)
Definition main (fuel : nat) (device : option string) : run state Z :=
  match device with
  | Some path =>
      v4l2_check_device fuel path ;;
      record_flush ;;
      ret EXIT_SUCCESS
  | None =>
      PrintUsage ;;
      ret 0
  end.
End Probe.

(** *** Observations on a run *)

Definition is_close (c : syscall) : bool :=
  match c with SysClose _ => true | _ => false end.

(** The queries [index], [index + 1], ... made on one queue. *)
Fixpoint queries (fd ty index : Z) (count : nat) : list syscall :=
  match count with
  | O => []
  | S count' => SysEnumFmt fd ty index :: queries fd ty (index + 1) count'
  end.

(** The release owed for what [open] returned. *)
Definition released (fd : Z) : list syscall :=
  if 0 <=? fd then [SysClose fd] else [].

(** The VIDIOC_ENUM_FMT query on queue [ty] first fails at index [n]. *)
Definition first_failure (dev : device) (ty : Z) (n : nat) : Prop :=
  (forall j, 0 <= j < Z.of_nat n -> 0 <= fst (enum_fmt dev ty j)) /\
  fst (enum_fmt dev ty (Z.of_nat n)) < 0.

(** The device passes the three capability tests that precede the
    enumeration. *)
Definition usable (dev : device) : bool :=
  test_bit (capabilities dev) V4L2_CAP_DEVICE_CAPS &&
  test_bit (device_caps dev) V4L2_CAP_STREAMING &&
  (test_bit (device_caps dev) V4L2_CAP_VIDEO_M2M ||
   test_bit (device_caps dev) V4L2_CAP_VIDEO_M2M_MPLANE).

(** The queue types [v4l2_check_device] enumerates on [dev]. *)
Definition capture_queue (dev : device) : Z :=
  if test_bit (device_caps dev) V4L2_CAP_VIDEO_M2M_MPLANE
  then V4L2_BUF_TYPE_VIDEO_CAPTURE_MPLANE
  else V4L2_BUF_TYPE_VIDEO_CAPTURE.

(** The state in which the probe of an opened device ends when it gives up
    with the error [msg], having made the calls [middle] between
    VIDIOC_QUERYCAP and [close]. *)
Definition rejected (dev : device) (path msg : string) (middle : list syscall)
    (s : state) : state :=
  mkState
    (mkPipe (recorded (out s) ++ [("ERROR" ++ nl ++ msg ++ nl)%string])
       (written (out s)))
    (calls s ++
     SysOpen path :: SysQueryCap (open_ret dev) :: middle ++ [SysClose (open_ret dev)]).

(** The value of [supported] after the queries at indices below [k] have
    all succeeded. *)
Fixpoint accumulated (dev : device) (ty : Z) (k : nat) : Z :=
  match k with
  | O => 0
  | S k' => fmt_switch (accumulated dev ty k') (snd (enum_fmt dev ty (Z.of_nat k')))
  end.

End V4L2Test.

(** ** mpptest: the Rockchip MPP library probe *)

Module MppTest.
Import GfxInfoUtils.

(** [MppCtxType] and [MppCodingType]. *)
Definition MPP_CTX_DEC : Z := 0.
Definition MPP_CTX_ENC : Z := 1.

Definition MPP_VIDEO_CodingAVC : Z := 0x7.
Definition MPP_VIDEO_CodingVP8 : Z := 0x9.
Definition MPP_VIDEO_CodingVP9 : Z := 0xa.
Definition MPP_VIDEO_CodingAV1 : Z := 0x01000008.

(** The two arrays local to [main]. *)
Definition hwaccels : list Z :=
  [CODEC_HW_H264; CODEC_HW_VP8; CODEC_HW_VP9; CODEC_HW_AV1].
Definition mppcodings : list Z :=
  [MPP_VIDEO_CodingAVC; MPP_VIDEO_CodingVP8; MPP_VIDEO_CodingVP9;
   MPP_VIDEO_CodingAV1].

(** Calls that leave the program, in the order they are made. *)
Inductive event : Type :=
| EvDlopen (name : string)
| EvDlsym (handle : Z) (symbol : string)
| EvDlclose (handle : Z)
| EvCreate
| EvCheck (ty coding : Z)
| EvInit (ctx ty coding : Z)
| EvReset (mpi ctx : Z)
| EvDestroy (ctx : Z).

Section Library.
(** The internal state of the loaded library. *)
Context {L : Type}.

(** What the loader and the library answer.  Pointers are numbers and 0
    is the null pointer.  [mpp_create] returns its status together with
    the values it leaves in [*ctx] and [*mpi]; [mpi_reset mpi ctx] is
    the call [mpi->reset(ctx)] through a table at address [mpi]. *)
Record world : Type := mkWorld {
  dlopen_ret : Z;
  dlsym_ret : string -> Z;
  mpp_create : L -> Z * Z * Z * L;
  mpp_check_support_format : Z -> Z -> L -> Z * L;
  mpp_init : Z -> Z -> Z -> L -> Z * L;
  mpi_reset : Z -> Z -> L -> Z * L;
  mpp_destroy : Z -> L -> Z * L
}.

(** The program state: the pipe, the calls made, the library's state
    and the global [Mpp], which [fail] reads.  The globals [MppCreate],
    [MppCheck], [MppInit] and [MppDestroy] are written once and only
    read by [main]; they are bound by name there. *)
Record state : Type := mkState {
  out : pipe;
  events : list event;
  lib : L;
  Mpp : Z
}.

Definition initial (l : L) : state := mkState empty_pipe [] l 0.

Definition set_out (p : pipe) (s : state) : state :=
  mkState p (events s) (lib s) (Mpp s).
Definition set_Mpp (h : Z) : run state unit :=
  modify (fun s => mkState (out s) (events s) (lib s) h).
Definition emit (e : event) : run state unit :=
  modify (fun s => mkState (out s) (events s ++ [e]) (lib s) (Mpp s)).

(** A call into the library: it answers from its state and moves on. *)
Definition call {A : Type} (f : L -> A * L) : run state A :=
  fun s =>
    let (a, l') := f (lib s) in
    Done a (mkState (out s) (events s) l' (Mpp s)).

Definition record_value := GfxInfoUtils.record_value out set_out.
Definition record_flush := GfxInfoUtils.record_flush out set_out.

Variable w : world.

Definition dlopen (name : string) : run state Z :=
  emit (EvDlopen name) ;; ret (dlopen_ret w).

Definition dlsym (handle : Z) (symbol : string) : run state Z :=
  emit (EvDlsym handle symbol) ;; ret (dlsym_ret w symbol).

Definition dlclose (handle : Z) : run state unit := emit (EvDlclose handle).

Definition call_create : run state (Z * Z * Z) :=
  emit EvCreate ;;
  call (fun l => let '(rc, ctx, mpi, l') := mpp_create w l in (rc, ctx, mpi, l')).

Definition call_check (ty coding : Z) : run state Z :=
  emit (EvCheck ty coding) ;; call (mpp_check_support_format w ty coding).

Definition call_init (ctx ty coding : Z) : run state Z :=
  emit (EvInit ctx ty coding) ;; call (mpp_init w ctx ty coding).

(** [mpi->reset(ctx)]: with [mpi] null there is no table to read. *)
Definition call_reset (mpi ctx : Z) : run state Z :=
  if mpi =? 0 then undefined
  else (emit (EvReset mpi ctx) ;; call (mpi_reset w mpi ctx)).

Definition call_destroy (ctx : Z) : run state Z :=
  emit (EvDestroy ctx) ;; call (mpp_destroy w ctx).

Definition fail (msg : string) : run state Z :=
  record_value ("ERROR" ++ nl ++ "%s" ++ nl) [VaStr msg] ;;
  h <- gets Mpp ;;
  (if negb (h =? 0) then dlclose h else ret tt) ;;
  record_flush ;;
  ret EXIT_FAILURE.

(** The body of the [for] loop at index [i]; [continue] leaves
    [supported] as it is. *)
Definition probe_codec (i : nat) (supported : Z) : run state Z :=
  '(rc, mppctx, mpi) <- call_create ;;
  if negb (rc =? 0) then ret supported
  else
    rc <- call_check MPP_CTX_DEC (nth i mppcodings 0) ;;
    if negb (rc =? 0) then ret supported
    else
      rc <- call_init mppctx MPP_CTX_DEC (nth i mppcodings 0) ;;
      if negb (rc =? 0) then ret supported
      else
        let supported := Z.lor supported (nth i hwaccels 0) in
        call_reset mpi mppctx ;;
        call_destroy mppctx ;;
        ret supported.

(** [for (uint i = ...; i < sizeof(mppcodings) / sizeof(MppCodingType); i++)]
    over the indices still to visit. *)
Fixpoint for_codecs (indices : list nat) (supported : Z) : run state Z :=
  match indices with
  | [] => ret supported
  | i :: rest =>
      supported <- probe_codec i supported ;;
      for_codecs rest supported
  end.

Definition main : run state Z :=
  let supported := 0 in
  h <- dlopen "librockchip_mpp.so" ;;
  set_Mpp h ;;
  if h =? 0 then fail "Can not load mpp library"
  else
    MppCreate <- dlsym h "mpp_create" ;;
    if MppCreate =? 0 then fail "Can not bind MppCreate"
    else
      MppCheck <- dlsym h "mpp_check_support_format" ;;
      if MppCheck =? 0 then fail "Can not bind MppCheck"
      else
        MppInit <- dlsym h "mpp_init" ;;
        if MppInit =? 0 then fail "Can not bind MppInit"
        else
          MppDestroy <- dlsym h "mpp_destroy" ;;
          if MppDestroy =? 0 then fail "Can not bind MppDestroy"
          else
            supported <- for_codecs (seq 0 (List.length mppcodings)) supported ;;
            record_value
              ("SUPPORTED" ++ nl ++ "%s" ++ nl ++ "HWCODECS" ++ nl ++ "%d" ++ nl)
              [VaStr (if negb (supported =? 0) then "TRUE" else "FALSE");
               VaInt supported] ;;
            h <- gets Mpp ;;
            dlclose h ;;
            record_flush ;;
            ret EXIT_SUCCESS.

(** *** Observations on a run *)

(** What [mpp_create] answers in library state [l]. *)
Definition create_rc (l : L) : Z :=
  let '(rc, _, _, _) := mpp_create w l in rc.
Definition created_ctx (l : L) : Z :=
  let '(_, ctx, _, _) := mpp_create w l in ctx.
Definition created_mpi (l : L) : Z :=
  let '(_, _, mpi, _) := mpp_create w l in mpi.

(** Create, check and init all succeed for [coding] when the candidate
    is tried with the library in state [l]. *)
Definition codec_ok (coding : Z) (l : L) : bool :=
  let '(rc, ctx, _, l1) := mpp_create w l in
  (rc =? 0) &&
  (let (rc, l2) := mpp_check_support_format w MPP_CTX_DEC coding l1 in
   (rc =? 0) &&
   (let (rc, _) := mpp_init w ctx MPP_CTX_DEC coding l2 in rc =? 0)).

(** The state in which one pass of the loop body leaves the library. *)
Definition lib_step (i : nat) (l : L) : L :=
  match probe_codec i 0 (initial l) with
  | Done _ s => lib s
  | _ => l
  end.

(** The state of the library when candidate [k] is tried. *)
Fixpoint lib_before (k : nat) (l : L) : L :=
  match k with
  | O => l
  | S k' => lib_step k' (lib_before k' l)
  end.
End Library.

Arguments world : clear implicits.
Arguments state : clear implicits.

(** The four entry points: the symbol looked up and the name under which
    [main] reports it missing. *)
Definition required : list (string * string) :=
  [("mpp_create", "MppCreate");
   ("mpp_check_support_format", "MppCheck");
   ("mpp_init", "MppInit");
   ("mpp_destroy", "MppDestroy")]%string.

Definition missing {L : Type} (w : world L) (entry : string * string) : bool :=
  dlsym_ret w (fst entry) =? 0.

(** The library cannot be loaded, or one of the entry points cannot be
    resolved. *)
Definition unavailable {L : Type} (w : world L) : bool :=
  (dlopen_ret w =? 0) || existsb (missing w) required.

(** The lookups made up to and including the one for [symbol]. *)
Fixpoint lookups_until (handle : Z) (symbol : string) (entries : list (string * string))
  : list event :=
  match entries with
  | [] => []
  | (sym, _) :: rest =>
      EvDlsym handle sym ::
      (if String.eqb sym symbol then [] else lookups_until handle symbol rest)
  end.

(** The release owed for what [dlopen] returned. *)
Definition unloaded (handle : Z) : list event :=
  if handle =? 0 then [] else [EvDlclose handle].

Definition is_dlclose (e : event) : bool :=
  match e with EvDlclose _ => true | _ => false end.

Definition is_codec_call (e : event) : bool :=
  match e with
  | EvCreate | EvCheck _ _ | EvInit _ _ _ | EvReset _ _ | EvDestroy _ => true
  | _ => false
  end.

Definition is_teardown (e : event) : bool :=
  match e with EvReset _ _ | EvDestroy _ => true | _ => false end.

Definition is_create (e : event) : bool :=
  match e with EvCreate => true | _ => false end.

(** The text [main] records for a finished probe. *)
Definition report (supported : Z) : string :=
  "SUPPORTED" ++ nl ++ (if negb (supported =? 0) then "TRUE" else "FALSE") ++ nl ++
  "HWCODECS" ++ nl ++ decimal supported ++ nl.

Section Shapes.
Context {L : Type}.
Variable w : world L.

(** The state in which the loop over the candidates is entered. *)
Definition start (l : L) : state L :=
  mkState empty_pipe
    (EvDlopen "librockchip_mpp.so" ::
     map (fun entry => EvDlsym (dlopen_ret w) (fst entry)) required)
    l (dlopen_ret w).

(** The state in which [main] returns after the loop, from the state
    [s] in which the loop ended with [supported]. *)
Definition finish (supported : Z) (s : state L) : state L :=
  mkState
    (mkPipe (recorded (out s) ++ [report supported])
       (written (out s) ++ [concat "" (recorded (out s) ++ [report supported])]))
    (events s ++ [EvDlclose (Mpp s)]) (lib s) (Mpp s).

(** The state in which [main] returns through [fail msg], after the
    loader calls [evs]. *)
Definition failed (msg : string) (evs : list event) (l : L) : state L :=
  mkState
    (mkPipe [("ERROR" ++ nl ++ msg ++ nl)%string] [("ERROR" ++ nl ++ msg ++ nl)%string])
    (EvDlopen "librockchip_mpp.so" :: evs ++ unloaded (dlopen_ret w))
    l (dlopen_ret w).

(** Candidate [k] is accepted: create, check and init succeed for it in
    the state the library is in when it is tried. *)
Definition accepted (k : nat) (l : L) : bool :=
  codec_ok w (nth k mppcodings 0) (lib_before w k l).

(** The calls one pass of the loop body makes with the library in state
    [l]. *)
Definition pass_calls (i : nat) (l : L) : list event :=
  match probe_codec w i 0 (initial l) with
  | Done _ s => events s
  | _ => []
  end.

(** The reset and destroy owed to candidate [k]. *)
Definition teardown (k : nat) (l : L) : list event :=
  if accepted k l
  then [EvReset (created_mpi w (lib_before w k l)) (created_ctx w (lib_before w k l));
        EvDestroy (created_ctx w (lib_before w k l))]
  else [].

(** The calls of the passes for candidates [a], [a + 1], ..., [n] of them. *)
Fixpoint passes_calls (l : L) (a n : nat) : list event :=
  match n with
  | O => []
  | S n' => pass_calls a (lib_before w a l) ++ passes_calls l (S a) n'
  end.
End Shapes.

(** The contribution of one candidate to the bitmask. *)
Definition flag (set : bool) (bit : Z) : Z := if set then bit else 0.

(** The bitmask after the passes for candidates [a], [a + 1], ..., [n] of
    them, entered with [supported]. *)
Fixpoint passes_mask {L : Type} (w : world L) (l : L) (a n : nat) (supported : Z) : Z :=
  match n with
  | O => supported
  | S n' =>
      passes_mask w l (S a) n'
        (Z.lor supported (flag (accepted w a l) (nth a hwaccels 0)))
  end.

(** The four bits a codec can set, [0xF0]. *)
Definition codec_bits : Z :=
  Z.lor CODEC_HW_H264 (Z.lor CODEC_HW_VP8 (Z.lor CODEC_HW_VP9 CODEC_HW_AV1)).
End MppTest.

(** ** Sample devices and libraries *)

Module Samples.
Import GfxInfoUtils.

(** A queue that lists [fmts]; the query past the last entry fails with
    -1, as [ioctl] does. *)
Definition format_table (fmts : list Z) (index : Z) : Z * Z :=
  match nth_error fmts (Z.to_nat index) with
  | Some pixelformat => (0, pixelformat)
  | None => (-1, 0)
  end.

Definition m2m_caps : Z :=
  Z.lor V4L2Test.V4L2_CAP_VIDEO_M2M_MPLANE V4L2Test.V4L2_CAP_STREAMING.

(** A multi-planar stateful decoder: NV12 frames out, H264 bitstream in. *)
Definition decoder : V4L2Test.device :=
  V4L2Test.mkDevice 3 "" 0
    (Z.lor m2m_caps V4L2Test.V4L2_CAP_DEVICE_CAPS) m2m_caps
    (fun ty index =>
       if ty =? V4L2Test.V4L2_BUF_TYPE_VIDEO_CAPTURE_MPLANE
       then format_table [V4L2Test.V4L2_PIX_FMT_NV12] index
       else if ty =? V4L2Test.V4L2_BUF_TYPE_VIDEO_OUTPUT_MPLANE
       then format_table [V4L2Test.V4L2_PIX_FMT_H264] index
       else (-1, 0)).

(** A device that lists H264 ahead of NV12 on every queue. *)
Definition mixed : V4L2Test.device :=
  V4L2Test.mkDevice 3 "" 0
    (Z.lor m2m_caps V4L2Test.V4L2_CAP_DEVICE_CAPS) m2m_caps
    (fun _ index =>
       format_table [V4L2Test.V4L2_PIX_FMT_H264; V4L2Test.V4L2_PIX_FMT_NV12] index).

(** The same device with nothing listed on either queue. *)
Definition bare : V4L2Test.device :=
  V4L2Test.mkDevice 3 "" 0
    (Z.lor m2m_caps V4L2Test.V4L2_CAP_DEVICE_CAPS) m2m_caps
    (fun _ _ => (-1, 0)).

(** A path with no device node behind it. *)
Definition absent : V4L2Test.device :=
  V4L2Test.mkDevice (-1) "No such file or directory" (-1) 0 0
    (fun _ _ => (-1, 0)).

Definition video10 : string := "/dev/video10".

(** A library whose state counts the contexts it has handed out.  Context
    [n] lives at address [1000 + n]; every context shares the operation
    table at address 500.  [check] accepts exactly the codings in
    [codecs]. *)
Definition library (handle : Z) (symbols : string -> Z) (codecs : list Z)
  : MppTest.world nat :=
  MppTest.mkWorld handle symbols
    (fun n => (0, 1000 + Z.of_nat n, 500, S n))
    (fun _ coding n => (if existsb (Z.eqb coding) codecs then 0 else -1, n))
    (fun _ _ _ n => (0, n))
    (fun _ _ n => (0, n))
    (fun _ n => (0, n)).

Definition all_symbols (_ : string) : Z := 7.

Definition without (symbol : string) (name : string) : Z :=
  if String.eqb name symbol then 0 else 7.

Definition vp9_only : MppTest.world nat :=
  library 100 all_symbols [MppTest.MPP_VIDEO_CodingVP9].
Definition no_codec : MppTest.world nat := library 100 all_symbols [].
Definition no_init_symbol : MppTest.world nat :=
  library 100 (without "mpp_init") [MppTest.MPP_VIDEO_CodingVP9].

(** A node whose driver rejects VIDIOC_QUERYCAP. *)
Definition stalled : V4L2Test.device :=
  V4L2Test.mkDevice 3 "" (-1) 0 0 (fun _ _ => (-1, 0)).

(** A driver that predates per-device capabilities. *)
Definition legacy : V4L2Test.device :=
  V4L2Test.mkDevice 3 "" 0 m2m_caps m2m_caps (fun _ _ => (-1, 0)).

(** A memory-to-memory device without streaming I/O. *)
Definition no_streaming : V4L2Test.device :=
  V4L2Test.mkDevice 3 "" 0
    (Z.lor V4L2Test.V4L2_CAP_VIDEO_M2M V4L2Test.V4L2_CAP_DEVICE_CAPS)
    V4L2Test.V4L2_CAP_VIDEO_M2M (fun _ _ => (-1, 0)).

(** A webcam: streaming video capture (0x1), no memory-to-memory mode. *)
Definition webcam : V4L2Test.device :=
  V4L2Test.mkDevice 3 "" 0
    (Z.lor (Z.lor 1 V4L2Test.V4L2_CAP_STREAMING) V4L2Test.V4L2_CAP_DEVICE_CAPS)
    (Z.lor 1 V4L2Test.V4L2_CAP_STREAMING)
    (fun _ index => format_table [V4L2Test.V4L2_PIX_FMT_NV12] index).

(** A driver that answers every index with NV12. *)
Definition endless : V4L2Test.device :=
  V4L2Test.mkDevice 3 "" 0
    (Z.lor m2m_caps V4L2Test.V4L2_CAP_DEVICE_CAPS) m2m_caps
    (fun _ _ => (0, V4L2Test.V4L2_PIX_FMT_NV12)).

Definition not_installed : MppTest.world nat := library 0 all_symbols [].

(** A library that supports H264 and VP9. *)
Definition h264_vp9 : MppTest.world nat :=
  library 100 all_symbols [MppTest.MPP_VIDEO_CodingAVC; MppTest.MPP_VIDEO_CodingVP9].
End Samples.

(** ** Facts about the result pipe *)

Module PipeFacts.
Import GfxInfoUtils.

Lemma error_line (msg : string) :
  vformat ("ERROR" ++ nl ++ "%s" ++ nl) [VaStr msg] = Some ("ERROR" ++ nl ++ msg ++ nl)%string.
Proof. reflexivity. Qed.

Section Pipe.
Context {St : Type}.
Variable get_pipe : St -> pipe.
Variable set_pipe : pipe -> St -> St.

Lemma record_value_done fmt args text s :
  vformat fmt args = Some text ->
  record_value get_pipe set_pipe fmt args s =
  Done tt (set_pipe (mkPipe (recorded (get_pipe s) ++ [text])
                       (written (get_pipe s))) s).
Proof. intros H. unfold record_value. rewrite H. reflexivity. Qed.

Lemma record_error_done fmt args msg s :
  vformat fmt args = Some msg ->
  record_error get_pipe set_pipe fmt args s =
  Done tt (set_pipe (mkPipe (recorded (get_pipe s) ++ [("ERROR" ++ nl ++ msg ++ nl)%string])
                       (written (get_pipe s))) s).
Proof.
  intros H. unfold record_error. rewrite H.
  apply record_value_done, error_line.
Qed.

Lemma record_error_defined fmt args s :
  vformat fmt args <> None ->
  exists msg,
    record_error get_pipe set_pipe fmt args s =
    Done tt (set_pipe (mkPipe (recorded (get_pipe s) ++ [("ERROR" ++ nl ++ msg ++ nl)%string])
                         (written (get_pipe s))) s).
Proof.
  intros H. destruct (vformat fmt args) as [msg|] eqn:E; [|congruence].
  exists msg. now apply record_error_done.
Qed.

(** A conversion that finds an argument of the wrong type stops the
    run. *)
Lemma record_value_undefined fmt args s :
  vformat fmt args = None ->
  record_value get_pipe set_pipe fmt args s = Undefined.
Proof. intros H. unfold record_value. rewrite H. reflexivity. Qed.
End Pipe.
End PipeFacts.

(** ** Facts about v4l2test *)

Module V4L2Facts.
Import GfxInfoUtils V4L2Test.

Ltac step :=
  unfold v4l2_supported_fmts, ioctl_enum_fmt, ioctl_querycap, sys_open,
    sys_close, autoRelease, called, bind, ret, modify, out_of_fuel;
  simpl.

Ltac record_err :=
  match goal with
  | |- context [GfxInfoUtils.record_error out set_out ?fmt ?args ?s1] =>
      let E := fresh "E" in
      destruct (PipeFacts.record_error_defined out set_out fmt args s1) as [msg E];
      [ let H := fresh in intro H; vm_compute in H; discriminate H
      | rewrite E; clear E ]
  end.

Section Device.
Variable dev : device.

Lemma enum_passes_snoc n : forall fd ty c s,
  enum_passes dev (S n) fd ty c s =
  match enum_passes dev n fd ty c s with
  | Done (inl r) s' => Done (inl r) s'
  | Done (inr c') s' => enum_pass dev fd ty c' s'
  | Undefined => Undefined
  | OutOfFuel => OutOfFuel
  end.
Proof.
  induction n as [|n IH]; intros fd ty c s.
  - cbn [enum_passes]. unfold bind, ret.
    destruct (enum_pass dev fd ty c s) as [[r|c'] s'| |]; reflexivity.
  - change (enum_passes dev (S (S n)) fd ty c s)
      with (bind (enum_pass dev fd ty c)
              (fun next => match next with
                           | inl r => ret (inl r)
                           | inr c' => enum_passes dev (S n) fd ty c'
                           end) s).
    change (enum_passes dev (S n) fd ty c s)
      with (bind (enum_pass dev fd ty c)
              (fun next => match next with
                           | inl r => ret (inl r)
                           | inr c' => enum_passes dev n fd ty c'
                           end) s).
    unfold bind.
    destruct (enum_pass dev fd ty c s) as [[r|c'] s'| |]; try reflexivity.
    apply IH.
Qed.

Lemma enum_loop_O fd ty index supported s :
  enum_loop dev 0 fd ty index supported s = OutOfFuel.
Proof. reflexivity. Qed.

Lemma enum_loop_S fuel fd ty index supported s :
  enum_loop dev (S fuel) fd ty index supported s =
  (let (result, pixelformat) := enum_fmt dev ty index in
   if result <? 0 then
     Done result (mkState (out s) (calls s ++ [SysEnumFmt fd ty index]))
   else
     enum_loop dev fuel fd ty ((index + 1) mod 2 ^ 32)
       (fmt_switch supported pixelformat)
       (mkState (out s) (calls s ++ [SysEnumFmt fd ty index]))).
Proof.
  unfold enum_loop. cbn [enum_passes]. unfold enum_pass, ioctl_enum_fmt, called.
  unfold bind, ret, modify. cbn [V4L2Test.index V4L2Test.supported out calls].
  destruct (enum_fmt dev ty index) as [result pixelformat].
  destruct (result <? 0); reflexivity.
Qed.

(** Whatever the queue lists, a finished enumeration hands back what the
    failing query returned. *)
Lemma enum_loop_done fuel : forall fd ty index supported s r s',
  enum_loop dev fuel fd ty index supported s = Done r s' ->
  r < 0 /\ out s' = out s /\
  exists evs, calls s' = calls s ++ evs /\ filter is_close evs = [].
Proof.
  induction fuel as [|fuel IH]; intros fd ty index supported s r s' H.
  - rewrite enum_loop_O in H. discriminate H.
  - revert H. rewrite enum_loop_S.
    destruct (enum_fmt dev ty index) as [result pixelformat].
    destruct (result <? 0) eqn:E.
    + intros H. inversion H; subst. simpl.
      split; [now apply Z.ltb_lt|]. split; [reflexivity|].
      now exists [SysEnumFmt fd ty index].
    + intros H. apply IH in H. simpl in H.
      destruct H as (Hr & Ho & evs & Hc & Hf).
      split; [exact Hr|]. split; [exact Ho|].
      exists (SysEnumFmt fd ty index :: evs). split.
      * rewrite Hc, <- app_assoc. reflexivity.
      * simpl. exact Hf.
Qed.

Lemma enum_loop_defined fuel : forall fd ty index supported s,
  enum_loop dev fuel fd ty index supported s <> Undefined.
Proof.
  induction fuel as [|fuel IH]; intros fd ty index supported s.
  - rewrite enum_loop_O. discriminate.
  - rewrite enum_loop_S.
    destruct (enum_fmt dev ty index) as [result pixelformat].
    destruct (result <? 0); [discriminate | apply IH].
Qed.

(** The walk over a queue whose first failing index is [index + k]:
    [k + 1] queries at consecutive indices, the last of which fails. *)
Lemma enum_loop_run : forall k fuel fd ty index supported s,
  0 <= index ->
  index + Z.of_nat k < 2 ^ 32 ->
  (forall j, index <= j < index + Z.of_nat k -> 0 <= fst (enum_fmt dev ty j)) ->
  fst (enum_fmt dev ty (index + Z.of_nat k)) < 0 ->
  (k < fuel)%nat ->
  enum_loop dev fuel fd ty index supported s =
  Done (fst (enum_fmt dev ty (index + Z.of_nat k)))
       (mkState (out s) (calls s ++ queries fd ty index (S k))).
Proof.
  induction k as [|k IH]; intros fuel fd ty index supported s Hi Hb Hok Hfail Hfuel.
  - destruct fuel as [|fuel]; [lia|].
    rewrite Z.add_0_r in *. rewrite enum_loop_S.
    destruct (enum_fmt dev ty index) as [result pixelformat]; simpl in *.
    apply Z.ltb_lt in Hfail. rewrite Hfail. reflexivity.
  - destruct fuel as [|fuel]; [lia|].
    rewrite Nat2Z.inj_succ in *.
    replace (index + Z.succ (Z.of_nat k)) with (index + 1 + Z.of_nat k) in * by lia.
    assert (Hhere : 0 <= fst (enum_fmt dev ty index)) by (apply Hok; lia).
    rewrite enum_loop_S.
    destruct (enum_fmt dev ty index) as [result pixelformat]; simpl in Hhere.
    apply Z.ltb_ge in Hhere. rewrite Hhere.
    rewrite Z.mod_small by lia.
    rewrite IH; try lia; try assumption.
    + simpl. rewrite <- app_assoc. reflexivity.
    + intros j Hj. apply Hok. lia.
Qed.

Lemma v4l2_supported_fmts_run n fuel fd ty s :
  first_failure dev ty n ->
  Z.of_nat n < 2 ^ 32 ->
  (n < fuel)%nat ->
  v4l2_supported_fmts dev fuel fd ty s =
  Done (fst (enum_fmt dev ty (Z.of_nat n)))
       (mkState (out s) (calls s ++ queries fd ty 0 (S n))).
Proof.
  intros [Hok Hfail] Hb Hfuel. unfold v4l2_supported_fmts.
  apply (enum_loop_run n); simpl; solve [lia | assumption].
Qed.

Lemma v4l2_supported_fmts_done fuel fd ty s r s' :
  v4l2_supported_fmts dev fuel fd ty s = Done r s' ->
  r < 0 /\ out s' = out s /\
  exists evs, calls s' = calls s ++ evs /\ filter is_close evs = [].
Proof. apply enum_loop_done. Qed.

(** Every run of the probe that returns has recorded one ERROR value and
    nothing else; the last thing it does is close the descriptor, if it
    got one. *)
Lemma v4l2_check_device_done fuel path s s' :
  v4l2_check_device dev fuel path s = Done tt s' ->
  (exists msg,
     recorded (out s') = recorded (out s) ++ [("ERROR" ++ nl ++ msg ++ nl)%string]) /\
  written (out s') = written (out s) /\
  exists middle,
    calls s' = calls s ++ SysOpen path :: middle ++ released (open_ret dev) /\
    filter is_close middle = [].
Proof.
  unfold v4l2_check_device, record_error, released.
  unfold sys_open, ioctl_querycap, autoRelease, sys_close, called, bind, ret, modify.
  cbn [out calls].
  destruct (open_ret dev <? 0) eqn:Hopen.
  { record_err.
    apply Z.ltb_lt in Hopen.
    destruct (0 <=? open_ret dev) eqn:Hfd; [apply Z.leb_le in Hfd; lia|].
    intros H; inversion H; subst s'; clear H. cbn [out calls recorded written set_out].
    split; [exists msg; reflexivity|]. split; [reflexivity|].
    exists []. rewrite <- ?app_assoc. split; reflexivity. }
  apply Z.ltb_ge in Hopen.
  assert (Hfd : (0 <=? open_ret dev) = true) by now apply Z.leb_le.
  rewrite Hfd.
  destruct (querycap_ret dev <? 0).
  { record_err.
    intros H; inversion H; subst s'; clear H. cbn [out calls recorded written set_out].
    split; [exists msg; reflexivity|]. split; [reflexivity|].
    exists [SysQueryCap (open_ret dev)]. rewrite <- ?app_assoc. split; reflexivity. }
  destruct (negb (test_bit (capabilities dev) V4L2_CAP_DEVICE_CAPS)).
  { record_err.
    intros H; inversion H; subst s'; clear H. cbn [out calls recorded written set_out].
    split; [exists msg; reflexivity|]. split; [reflexivity|].
    exists [SysQueryCap (open_ret dev)]. rewrite <- ?app_assoc. split; reflexivity. }
  destruct (negb (test_bit (device_caps dev) V4L2_CAP_STREAMING)).
  { record_err.
    intros H; inversion H; subst s'; clear H. cbn [out calls recorded written set_out].
    split; [exists msg; reflexivity|]. split; [reflexivity|].
    exists [SysQueryCap (open_ret dev)]. rewrite <- ?app_assoc. split; reflexivity. }
  cbv zeta.
  destruct (negb (test_bit (device_caps dev) V4L2_CAP_VIDEO_M2M) &&
            negb (test_bit (device_caps dev) V4L2_CAP_VIDEO_M2M_MPLANE)).
  { record_err.
    intros H; inversion H; subst s'; clear H. cbn [out calls recorded written set_out].
    split; [exists msg; reflexivity|]. split; [reflexivity|].
    exists [SysQueryCap (open_ret dev)]. rewrite <- ?app_assoc. split; reflexivity. }
  match goal with
  | |- context [v4l2_supported_fmts dev fuel ?fd ?ty ?s1] =>
      destruct (v4l2_supported_fmts dev fuel fd ty s1) as [capture s2| |] eqn:Hcap
  end; try discriminate.
  apply v4l2_supported_fmts_done in Hcap.
  destruct Hcap as (Hneg & Hout & evs & Hcalls & Hnone).
  assert (Hle : (capture <=? 0) = true) by (apply Z.leb_le; lia).
  rewrite Hle.
  record_err.
  intros H; inversion H; subst s'; clear H. cbn [out calls recorded written set_out] in *.
  rewrite Hout, Hcalls.
  split; [exists msg; reflexivity|]. split; [reflexivity|].
  exists (SysQueryCap (open_ret dev) :: evs).
  rewrite <- ?app_assoc. split; [reflexivity|exact Hnone].
Qed.

(** C10: in the loop of [v4l2_supported_fmts], entered at index 0 with
    [supported] 0, take any pass that finds a descriptor whose pixel
    format is NV12 or YVU420.  Whatever [supported] held when the pass
    started, an H264 bit from an earlier index included, it holds exactly 1
    when the pass ends: the value is assigned, not OR-ed in, and the loop
    goes on at the next index. *)
Theorem uncompressed_format_overwrites n fd ty s c s' :
  enum_passes dev n fd ty (mkCursor 0 0) s = Done (inr c) s' ->
  0 <= fst (enum_fmt dev ty (index c)) ->
  snd (enum_fmt dev ty (index c)) = V4L2_PIX_FMT_NV12 \/
  snd (enum_fmt dev ty (index c)) = V4L2_PIX_FMT_YVU420 ->
  enum_passes dev (S n) fd ty (mkCursor 0 0) s =
  Done (inr (mkCursor ((index c + 1) mod 2 ^ 32) 1))
       (mkState (out s') (calls s' ++ [SysEnumFmt fd ty (index c)])).
Proof.
  intros Hrun Hok Hfmt. rewrite enum_passes_snoc, Hrun.
  unfold enum_pass, ioctl_enum_fmt, called, bind, ret, modify.
  destruct (enum_fmt dev ty (index c)) as [result pixelformat].
  cbn [fst snd] in Hok, Hfmt. apply Z.ltb_ge in Hok. rewrite Hok.
  destruct Hfmt as [-> | ->]; reflexivity.
Qed.
End Device.

Lemma uncompressed_format_overwrites_witness :
  enum_passes Samples.mixed 1 3 V4L2_BUF_TYPE_VIDEO_OUTPUT (mkCursor 0 0) initial =
    Done (inr (mkCursor 1 CODEC_HW_H264))
         (mkState empty_pipe [SysEnumFmt 3 V4L2_BUF_TYPE_VIDEO_OUTPUT 0]) /\
  enum_passes Samples.mixed 2 3 V4L2_BUF_TYPE_VIDEO_OUTPUT (mkCursor 0 0) initial =
    Done (inr (mkCursor ((1 + 1) mod 2 ^ 32) 1))
         (mkState empty_pipe
            ([SysEnumFmt 3 V4L2_BUF_TYPE_VIDEO_OUTPUT 0] ++
             [SysEnumFmt 3 V4L2_BUF_TYPE_VIDEO_OUTPUT 1])).
Proof.
  split; [reflexivity|].
  apply (uncompressed_format_overwrites Samples.mixed 1 3 V4L2_BUF_TYPE_VIDEO_OUTPUT
           initial (mkCursor 1 CODEC_HW_H264)
           (mkState empty_pipe [SysEnumFmt 3 V4L2_BUF_TYPE_VIDEO_OUTPUT 0])).
  - reflexivity.
  - simpl. lia.
  - left. reflexivity.
Defined.

(** C1, on the code: a decoder that lists NV12 on its capture queue and
    H264 on its output queue is reported as an error.  The capture
    enumeration returns the -1 of the query past the end of the list, the
    caller reads that as no recognized format, and the output queue is
    never enumerated. *)
Theorem decoder_is_reported_as_error :
  enum_fmt Samples.decoder V4L2_BUF_TYPE_VIDEO_CAPTURE_MPLANE 0 = (0, V4L2_PIX_FMT_NV12) /\
  enum_fmt Samples.decoder V4L2_BUF_TYPE_VIDEO_OUTPUT_MPLANE 0 = (0, V4L2_PIX_FMT_H264) /\
  v4l2_check_device Samples.decoder 2 Samples.video10 initial =
  Done tt
    (mkState
       (mkPipe
          [("ERROR" ++ nl ++
            "V4L2 device /dev/video10 does not support NV12 or YV12 capture formats" ++
            nl)%string]
          [])
       [SysOpen Samples.video10; SysQueryCap 3;
        SysEnumFmt 3 V4L2_BUF_TYPE_VIDEO_CAPTURE_MPLANE 0;
        SysEnumFmt 3 V4L2_BUF_TYPE_VIDEO_CAPTURE_MPLANE 1;
        SysClose 3]).
Proof. repeat split; vm_compute; reflexivity. Qed.

(** C2, on the code: the enumeration does walk the indices from 0 and
    stops at the first failing query, but what it returns is the value of
    that failing query.  A queue that lists NV12 and a queue that lists
    nothing both give -1. *)
Theorem enumeration_returns_the_failure :
  v4l2_supported_fmts Samples.decoder 2 3 V4L2_BUF_TYPE_VIDEO_CAPTURE_MPLANE initial =
    Done (-1)
      (mkState empty_pipe
         [SysEnumFmt 3 V4L2_BUF_TYPE_VIDEO_CAPTURE_MPLANE 0;
          SysEnumFmt 3 V4L2_BUF_TYPE_VIDEO_CAPTURE_MPLANE 1]) /\
  v4l2_supported_fmts Samples.bare 1 3 V4L2_BUF_TYPE_VIDEO_CAPTURE_MPLANE initial =
    Done (-1)
      (mkState empty_pipe [SysEnumFmt 3 V4L2_BUF_TYPE_VIDEO_CAPTURE_MPLANE 0]).
Proof. split; vm_compute; reflexivity. Qed.
End V4L2Facts.

(** ** Facts about mpptest *)

Module MppFacts.
Import GfxInfoUtils MppTest.

Lemma report_format supported :
  vformat ("SUPPORTED" ++ nl ++ "%s" ++ nl ++ "HWCODECS" ++ nl ++ "%d" ++ nl)
    [VaStr (if negb (supported =? 0) then "TRUE" else "FALSE"); VaInt supported] =
  Some (report supported).
Proof. unfold report. destruct (supported =? 0); reflexivity. Qed.

Lemma codec_call_not_dlclose evs :
  forallb is_codec_call evs = true -> filter is_dlclose evs = [].
Proof.
  induction evs as [|e evs IH]; [reflexivity|].
  simpl. intros H. apply andb_prop in H. destruct H as [He Hevs].
  destruct e; try discriminate He; simpl; auto.
Qed.

Ltac lib_calls :=
  unfold probe_codec, call_create, call_check, call_init, call_reset,
    call_destroy, call, emit, bind, ret, modify, undefined;
  cbn [out events lib Mpp initial].

Ltac tidy := cbn [out events lib Mpp negb andb].

Ltac main_steps :=
  unfold main, fail, dlopen, dlsym, dlclose, set_Mpp, emit, record_flush,
    GfxInfoUtils.record_flush, gets, bind, ret, modify;
  cbn [out events lib Mpp initial set_out].

Section Library.
Context {L : Type}.
Variable w : world L.

Lemma probe_codec_rejected i supported s :
  codec_ok w (nth i mppcodings 0) (lib s) = false ->
  exists evs,
    probe_codec w i supported s =
      Done supported
        (mkState (out s) (events s ++ EvCreate :: evs) (lib_step w i (lib s)) (Mpp s)) /\
    forallb is_codec_call evs = true /\
    filter is_create evs = [] /\
    filter is_teardown evs = [].
Proof.
  unfold codec_ok, lib_step. lib_calls.
  destruct (mpp_create w (lib s)) as [[[rc ctx] mpi] l1].
  destruct (rc =? 0); tidy.
  2:{ intros _. exists []. repeat split; reflexivity. }
  destruct (mpp_check_support_format w MPP_CTX_DEC (nth i mppcodings 0) l1)
    as [rc2 l2].
  destruct (rc2 =? 0); tidy.
  2:{ intros _. eexists [EvCheck _ _]. rewrite <- !app_assoc.
      repeat split; reflexivity. }
  destruct (mpp_init w ctx MPP_CTX_DEC (nth i mppcodings 0) l2) as [rc3 l3].
  destruct (rc3 =? 0); tidy; [discriminate|].
  intros _. eexists [EvCheck _ _; EvInit _ _ _]. rewrite <- !app_assoc.
  repeat split; reflexivity.
Qed.

(** The same pass when the context was created: the calls after the create
    are the check alone, or the check and the init on the new context. *)
Lemma probe_codec_abandoned i supported s :
  create_rc w (lib s) = 0 ->
  codec_ok w (nth i mppcodings 0) (lib s) = false ->
  exists evs,
    probe_codec w i supported s =
      Done supported
        (mkState (out s) (events s ++ EvCreate :: evs) (lib_step w i (lib s)) (Mpp s)) /\
    (evs = [EvCheck MPP_CTX_DEC (nth i mppcodings 0)] \/
     evs = [EvCheck MPP_CTX_DEC (nth i mppcodings 0);
            EvInit (created_ctx w (lib s)) MPP_CTX_DEC (nth i mppcodings 0)]).
Proof.
  unfold create_rc, created_ctx, codec_ok, lib_step. lib_calls.
  destruct (mpp_create w (lib s)) as [[[rc ctx] mpi] l1].
  intros ->. cbn [Z.eqb]. tidy.
  destruct (mpp_check_support_format w MPP_CTX_DEC (nth i mppcodings 0) l1)
    as [rc2 l2].
  destruct (rc2 =? 0); tidy.
  2:{ intros _. eexists. rewrite <- !app_assoc. split; [reflexivity|].
      left; reflexivity. }
  destruct (mpp_init w ctx MPP_CTX_DEC (nth i mppcodings 0) l2) as [rc3 l3].
  destruct (rc3 =? 0); tidy; [discriminate|].
  intros _. eexists. rewrite <- !app_assoc. split; [reflexivity|].
  right; reflexivity.
Qed.

Lemma probe_codec_accepted i supported s :
  codec_ok w (nth i mppcodings 0) (lib s) = true ->
  created_mpi w (lib s) <> 0 ->
  probe_codec w i supported s =
    Done (Z.lor supported (nth i hwaccels 0))
      (mkState (out s)
         (events s ++
          [EvCreate;
           EvCheck MPP_CTX_DEC (nth i mppcodings 0);
           EvInit (created_ctx w (lib s)) MPP_CTX_DEC (nth i mppcodings 0);
           EvReset (created_mpi w (lib s)) (created_ctx w (lib s));
           EvDestroy (created_ctx w (lib s))])
         (lib_step w i (lib s)) (Mpp s)).
Proof.
  unfold codec_ok, lib_step, created_mpi, created_ctx. lib_calls.
  destruct (mpp_create w (lib s)) as [[[rc ctx] mpi] l1].
  destruct (rc =? 0); tidy; [|discriminate].
  destruct (mpp_check_support_format w MPP_CTX_DEC (nth i mppcodings 0) l1)
    as [rc2 l2].
  destruct (rc2 =? 0); tidy; [|discriminate].
  destruct (mpp_init w ctx MPP_CTX_DEC (nth i mppcodings 0) l2) as [rc3 l3].
  destruct (rc3 =? 0); tidy; [|discriminate].
  intros _ Hmpi. apply Z.eqb_neq in Hmpi. rewrite Hmpi. tidy.
  destruct (mpi_reset w mpi ctx l3) as [rc4 l4]. tidy.
  destruct (mpp_destroy w ctx l4) as [rc5 l5]. tidy.
  rewrite <- !app_assoc. reflexivity.
Qed.

Lemma probe_codec_null_table i supported s :
  codec_ok w (nth i mppcodings 0) (lib s) = true ->
  created_mpi w (lib s) = 0 ->
  probe_codec w i supported s = Undefined.
Proof.
  unfold codec_ok, created_mpi. lib_calls.
  destruct (mpp_create w (lib s)) as [[[rc ctx] mpi] l1].
  destruct (rc =? 0); tidy; [|discriminate].
  destruct (mpp_check_support_format w MPP_CTX_DEC (nth i mppcodings 0) l1)
    as [rc2 l2].
  destruct (rc2 =? 0); tidy; [|discriminate].
  destruct (mpp_init w ctx MPP_CTX_DEC (nth i mppcodings 0) l2) as [rc3 l3].
  destruct (rc3 =? 0); tidy; [|discriminate].
  intros _ Hmpi. apply Z.eqb_eq in Hmpi. rewrite Hmpi. reflexivity.
Qed.

(** What any pass that returns has done: the pipe and [Mpp] are as
    before, the new calls all go to the library, and a context is
    destroyed only if create, check and init accepted it. *)
Lemma probe_codec_done i supported s r s' :
  probe_codec w i supported s = Done r s' ->
  out s' = out s /\ Mpp s' = Mpp s /\
  exists evs,
    events s' = events s ++ evs /\
    forallb is_codec_call evs = true /\
    (forall c, In (EvDestroy c) evs ->
       codec_ok w (nth i mppcodings 0) (lib s) = true /\
       c = created_ctx w (lib s)).
Proof.
  intros H.
  destruct (codec_ok w (nth i mppcodings 0) (lib s)) eqn:Hok.
  - destruct (Z.eq_dec (created_mpi w (lib s)) 0) as [Hnull|Hmpi].
    + rewrite probe_codec_null_table in H by assumption. discriminate H.
    + rewrite probe_codec_accepted in H by assumption.
      inversion H; subst; clear H. cbn [out events lib Mpp].
      split; [reflexivity|]. split; [reflexivity|].
      eexists. split; [reflexivity|]. split; [reflexivity|].
      intros c Hc. split; [reflexivity|].
      simpl in Hc.
      repeat (destruct Hc as [Hc|Hc]; [try discriminate Hc|]);
        [now inversion Hc|contradiction].
  - destruct (probe_codec_rejected i supported s Hok)
      as (evs & Hrun & Hcalls & Hcreate & Hdown).
    rewrite Hrun in H. inversion H; subst; clear H. cbn [out events lib Mpp].
    split; [reflexivity|]. split; [reflexivity|].
    exists (EvCreate :: evs). split; [reflexivity|]. split; [exact Hcalls|].
    intros c Hc. exfalso.
    destruct Hc as [Hc|Hc]; [discriminate Hc|].
    assert (Hin : In (EvDestroy c) (filter is_teardown evs))
      by (apply filter_In; split; [exact Hc|reflexivity]).
    rewrite Hdown in Hin. exact Hin.
Qed.

Lemma for_codecs_done indices : forall supported s r s',
  for_codecs w indices supported s = Done r s' ->
  out s' = out s /\ Mpp s' = Mpp s /\
  exists evs, events s' = events s ++ evs /\ forallb is_codec_call evs = true.
Proof.
  induction indices as [|i rest IH]; intros supported s r s' H.
  - inversion H; subst. split; [reflexivity|]. split; [reflexivity|].
    exists []. split; [now rewrite app_nil_r|reflexivity].
  - simpl in H. unfold bind in H.
    destruct (probe_codec w i supported s) as [r1 s1| |] eqn:Hstep;
      try discriminate H.
    apply probe_codec_done in Hstep.
    destruct Hstep as (Ho1 & Hm1 & evs1 & He1 & Hc1 & _).
    apply IH in H. destruct H as (Ho & Hm & evs & He & Hc).
    split; [congruence|]. split; [congruence|].
    exists (evs1 ++ evs). split.
    + rewrite He, He1, app_assoc. reflexivity.
    + rewrite forallb_app, Hc1, Hc. reflexivity.
Qed.

Lemma main_not_loaded l :
  dlopen_ret w = 0 ->
  main w (initial l) = Done EXIT_FAILURE (failed w "Can not load mpp library" [] l).
Proof.
  intros H. unfold failed, unloaded. main_steps. rewrite H.
  cbn [Z.eqb negb]. unfold record_value.
  rewrite (PipeFacts.record_value_done out set_out _ _ _ _ (PipeFacts.error_line _)).
  reflexivity.
Qed.

Lemma main_missing l symbol name :
  dlopen_ret w <> 0 ->
  find (missing w) required = Some (symbol, name) ->
  main w (initial l) =
  Done EXIT_FAILURE
    (failed w ("Can not bind " ++ name)
       (lookups_until (dlopen_ret w) symbol required) l).
Proof.
  intros Hh Hfind. apply Z.eqb_neq in Hh.
  unfold failed, unloaded. main_steps. rewrite Hh. cbn [negb].
  unfold record_value.
  revert Hfind. cbn [find required]. unfold missing. cbn [fst].
  destruct (dlsym_ret w "mpp_create" =? 0).
  { intros [= <- <-].
    rewrite (PipeFacts.record_value_done out set_out _ _ _ _ (PipeFacts.error_line _)).
    cbn [out events lib Mpp set_out recorded written]. rewrite Hh. reflexivity. }
  destruct (dlsym_ret w "mpp_check_support_format" =? 0).
  { intros [= <- <-].
    rewrite (PipeFacts.record_value_done out set_out _ _ _ _ (PipeFacts.error_line _)).
    cbn [out events lib Mpp set_out recorded written]. rewrite Hh. reflexivity. }
  destruct (dlsym_ret w "mpp_init" =? 0).
  { intros [= <- <-].
    rewrite (PipeFacts.record_value_done out set_out _ _ _ _ (PipeFacts.error_line _)).
    cbn [out events lib Mpp set_out recorded written]. rewrite Hh. reflexivity. }
  destruct (dlsym_ret w "mpp_destroy" =? 0).
  { intros [= <- <-].
    rewrite (PipeFacts.record_value_done out set_out _ _ _ _ (PipeFacts.error_line _)).
    cbn [out events lib Mpp set_out recorded written]. rewrite Hh. reflexivity. }
  discriminate.
Qed.

Lemma main_loaded l :
  dlopen_ret w <> 0 ->
  find (missing w) required = None ->
  main w (initial l) =
  match for_codecs w (seq 0 4) 0 (start w l) with
  | Done supported s => Done EXIT_SUCCESS (finish supported s)
  | Undefined => Undefined
  | OutOfFuel => OutOfFuel
  end.
Proof.
  intros Hh Hfind. apply Z.eqb_neq in Hh.
  unfold start, finish. main_steps. rewrite Hh.
  revert Hfind. cbn [find required]. unfold missing. cbn [fst].
  destruct (dlsym_ret w "mpp_create" =? 0); [discriminate|].
  destruct (dlsym_ret w "mpp_check_support_format" =? 0); [discriminate|].
  destruct (dlsym_ret w "mpp_init" =? 0); [discriminate|].
  destruct (dlsym_ret w "mpp_destroy" =? 0); [discriminate|].
  intros _.
  change (List.length mppcodings) with 4%nat.
  cbn [out events lib Mpp initial set_out app map required fst].
  match goal with
  | |- context [for_codecs w ?idx ?sup ?s0] =>
      destruct (for_codecs w idx sup s0) as [supported s4| |]
  end; [|reflexivity|reflexivity].
  unfold record_value.
  rewrite (PipeFacts.record_value_done out set_out _ _ _ _ (report_format _)).
  reflexivity.
Qed.

Lemma for_codecs_app xs ys supported s :
  for_codecs w (xs ++ ys) supported s =
  match for_codecs w xs supported s with
  | Done r s' => for_codecs w ys r s'
  | Undefined => Undefined
  | OutOfFuel => OutOfFuel
  end.
Proof.
  revert supported s. induction xs as [|i xs IH]; intros supported s.
  - reflexivity.
  - simpl. unfold bind.
    destruct (probe_codec w i supported s) as [r s1| |]; [apply IH| |]; reflexivity.
Qed.

(** A stretch of candidates that are all turned down: every one of them
    is tried, and [supported] comes out as it went in. *)
Lemma for_codecs_rejected l : forall n a supported s,
  lib s = lib_before w a l ->
  (forall k, (a <= k < a + n)%nat ->
     codec_ok w (nth k mppcodings 0) (lib_before w k l) = false) ->
  exists evs,
    for_codecs w (seq a n) supported s =
      Done supported
        (mkState (out s) (events s ++ evs) (lib_before w (a + n) l) (Mpp s)) /\
    List.length (filter is_create evs) = n /\
    filter is_teardown evs = [] /\
    forallb is_codec_call evs = true.
Proof.
  induction n as [|n IH]; intros a supported s Hlib Hno.
  - exists []. rewrite Nat.add_0_r, app_nil_r, <- Hlib.
    destruct s; repeat split; reflexivity.
  - assert (Hhere : codec_ok w (nth a mppcodings 0) (lib s) = false)
      by (rewrite Hlib; apply Hno; lia).
    destruct (probe_codec_rejected a supported s Hhere)
      as (evs1 & Hrun & Hcalls1 & Hcreate1 & Hdown1).
    cbn [seq for_codecs]. unfold bind. rewrite Hrun.
    destruct (IH (S a) supported
                (mkState (out s) (events s ++ EvCreate :: evs1)
                   (lib_step w a (lib s)) (Mpp s)))
      as (evs & Hrest & Hcreate & Hdown & Hcalls).
    + cbn [lib lib_before]. now rewrite Hlib.
    + intros k Hk. apply Hno. lia.
    + exists (EvCreate :: evs1 ++ evs). rewrite Hrest. cbn [out events lib Mpp].
      rewrite <- app_assoc, Nat.add_succ_r. split; [reflexivity|].
      cbn [filter is_create is_teardown forallb is_codec_call andb].
      rewrite !filter_app, forallb_app, Hcreate1, Hdown1, Hdown, Hcalls1, Hcalls.
      cbn [app List.length]. now rewrite Hcreate.
Qed.

(** C8: in a pass of the loop where create succeeds and the check or
    the init fails, the pass returns with [supported] unchanged, the
    loop goes on with the remaining candidates, and after the create
    call the pass neither resets nor destroys anything: the context is
    left as it is.  Conversely a pass that does call destroy is one in
    which create, check and init all succeeded; it destroys the context
    it created and sets the flag of its codec. *)
Theorem partial_failure_leaks_context i supported s :
  (create_rc w (lib s) = 0 ->
   codec_ok w (nth i mppcodings 0) (lib s) = false ->
   exists s' evs,
     probe_codec w i supported s = Done supported s' /\
     (forall rest, for_codecs w (i :: rest) supported s = for_codecs w rest supported s') /\
     events s' = events s ++ EvCreate :: evs /\
     (evs = [EvCheck MPP_CTX_DEC (nth i mppcodings 0)] \/
      evs = [EvCheck MPP_CTX_DEC (nth i mppcodings 0);
             EvInit (created_ctx w (lib s)) MPP_CTX_DEC (nth i mppcodings 0)]) /\
     (forall c, ~ In (EvDestroy c) evs)) /\
  (forall r s' evs c,
     probe_codec w i supported s = Done r s' ->
     events s' = events s ++ evs ->
     In (EvDestroy c) evs ->
     codec_ok w (nth i mppcodings 0) (lib s) = true /\
     c = created_ctx w (lib s) /\
     r = Z.lor supported (nth i hwaccels 0)).
Proof.
  split.
  - intros Hcreate Hno.
    destruct (probe_codec_abandoned i supported s Hcreate Hno) as (evs & Hrun & Hevs).
    eexists; exists evs. split; [exact Hrun|].
    split; [|split; [reflexivity|split; [exact Hevs|]]].
    + intros rest. cbn [for_codecs]. unfold bind. now rewrite Hrun.
    + intros c Hin.
      destruct Hevs as [-> | ->]; simpl in Hin;
        repeat (destruct Hin as [Hin|Hin]; [discriminate Hin|]); exact Hin.
  - intros r s' evs c Hrun Hev Hin.
    destruct (probe_codec_done i supported s r s' Hrun)
      as (_ & _ & evs' & Hev' & _ & Hdestroy).
    rewrite Hev' in Hev. apply app_inv_head in Hev. subst evs'.
    destruct (Hdestroy c Hin) as [Hok Hc].
    split; [exact Hok|]. split; [exact Hc|].
    destruct (Z.eq_dec (created_mpi w (lib s)) 0) as [Hnull|Hmpi].
    + rewrite probe_codec_null_table in Hrun by assumption. discriminate Hrun.
    + rewrite probe_codec_accepted in Hrun by assumption. now inversion Hrun.
Qed.

(** C5: when the library loads, the four entry points resolve, and
    create, check or init fails for each of the four candidates, [main]
    returns EXIT_SUCCESS having recorded the single value SUPPORTED
    FALSE, HWCODECS 0 and written it out; all four candidates were
    tried (four create calls) and nothing was reset or destroyed. *)
Theorem no_codec_is_not_fatal l :
  dlopen_ret w <> 0 ->
  find (missing w) required = None ->
  (forall k, (k < 4)%nat ->
     codec_ok w (nth k mppcodings 0) (lib_before w k l) = false) ->
  exists s',
    main w (initial l) = Done EXIT_SUCCESS s' /\
    recorded (out s') =
      [("SUPPORTED" ++ nl ++ "FALSE" ++ nl ++ "HWCODECS" ++ nl ++ "0" ++ nl)%string] /\
    written (out s') = recorded (out s') /\
    List.length (filter is_create (events s')) = 4%nat /\
    filter is_teardown (events s') = [].
Proof.
  intros Hh Hsyms Hno. rewrite main_loaded by assumption.
  destruct (for_codecs_rejected l 4 0 0 (start w l)) as (evs & Hrun & Hcreate & Hdown & _).
  - reflexivity.
  - intros k Hk. apply Hno. lia.
  - rewrite Hrun. eexists. split; [reflexivity|].
    unfold finish, start. cbn [out events lib Mpp recorded written empty_pipe app].
    split; [reflexivity|]. split; [reflexivity|].
    cbn [map required fst filter is_create is_teardown].
    rewrite !filter_app, !length_app, Hcreate, Hdown. split; reflexivity.
Qed.

(** C6: when create, check and init succeed for VP9 alone among the
    candidates tried in the order H264, VP8, VP9, AV1, [main] records
    SUPPORTED TRUE with HWCODECS 64, which is the VP9 bit [1 << 6] and
    nothing else, and the reset and destroy calls of the whole run are
    one reset and one destroy, both on the context created for VP9. *)
Theorem vp9_only_sets_vp9_bit l :
  dlopen_ret w <> 0 ->
  find (missing w) required = None ->
  codec_ok w MPP_VIDEO_CodingAVC (lib_before w 0 l) = false ->
  codec_ok w MPP_VIDEO_CodingVP8 (lib_before w 1 l) = false ->
  codec_ok w MPP_VIDEO_CodingVP9 (lib_before w 2 l) = true ->
  codec_ok w MPP_VIDEO_CodingAV1 (lib_before w 3 l) = false ->
  created_mpi w (lib_before w 2 l) <> 0 ->
  exists s',
    main w (initial l) = Done EXIT_SUCCESS s' /\
    recorded (out s') = [report CODEC_HW_VP9] /\
    report CODEC_HW_VP9 =
      ("SUPPORTED" ++ nl ++ "TRUE" ++ nl ++ "HWCODECS" ++ nl ++ "64" ++ nl)%string /\
    CODEC_HW_VP9 = Z.shiftl 1 6 /\
    filter is_teardown (events s') =
      [EvReset (created_mpi w (lib_before w 2 l)) (created_ctx w (lib_before w 2 l));
       EvDestroy (created_ctx w (lib_before w 2 l))].
Proof.
  intros Hh Hsyms Havc Hvp8 Hvp9 Hav1 Hmpi. rewrite main_loaded by assumption.
  change (seq 0 4) with (seq 0 2 ++ [2%nat] ++ seq 3 1).
  rewrite for_codecs_app.
  destruct (for_codecs_rejected l 2 0 0 (start w l)) as (before & Hrun & _ & Hdown & _).
  { reflexivity. }
  { intros k Hk. destruct k as [|[|k]]; [exact Havc|exact Hvp8|lia]. }
  rewrite Hrun. cbn [app for_codecs]. unfold bind at 1.
  rewrite probe_codec_accepted by (cbn [lib Nat.add]; assumption).
  cbn [out events lib Mpp Nat.add].
  match goal with
  | |- context [for_codecs w (seq 3 1) ?sup ?s3] =>
      destruct (for_codecs_rejected l 1 3 sup s3) as (after & Hrest & _ & Hup & _)
  end.
  { reflexivity. }
  { intros k Hk. assert (k = 3%nat) by lia. subst k. exact Hav1. }
  rewrite Hrest. eexists. split; [reflexivity|].
  unfold finish, start. cbn [out events lib Mpp recorded written empty_pipe app].
  split; [reflexivity|]. split; [reflexivity|]. split; [reflexivity|].
  cbn [map required fst filter is_teardown].
  rewrite <- !app_assoc, !filter_app, Hdown, Hup. reflexivity.
Qed.

(** C7: when the library loads and a lookup fails, [main] returns
    EXIT_FAILURE having recorded exactly one value, ERROR with the text
    "Can not bind" and the name of the first entry point that is
    missing; the lookups stop there, the handle is unloaded once, and no
    call reaches the library. *)
Theorem missing_symbol_is_fatal l symbol name :
  dlopen_ret w <> 0 ->
  find (missing w) required = Some (symbol, name) ->
  exists s',
    main w (initial l) = Done EXIT_FAILURE s' /\
    recorded (out s') = [("ERROR" ++ nl ++ "Can not bind " ++ name ++ nl)%string] /\
    written (out s') = recorded (out s') /\
    events s' =
      EvDlopen "librockchip_mpp.so" ::
      lookups_until (dlopen_ret w) symbol required ++ [EvDlclose (dlopen_ret w)] /\
    filter is_dlclose (events s') = [EvDlclose (dlopen_ret w)] /\
    filter is_codec_call (events s') = [].
Proof.
  intros Hh Hfind. rewrite (main_missing l symbol name) by assumption.
  eexists. split; [reflexivity|].
  unfold failed, unloaded. apply Z.eqb_neq in Hh. rewrite Hh.
  cbn [out events recorded written].
  split; [reflexivity|]. split; [reflexivity|]. split; [reflexivity|].
  apply find_some in Hfind. destruct Hfind as [Hin _].
  cbn [In required] in Hin.
  destruct Hin as [H|[H|[H|[H|[]]]]]; inversion H; subst; split; reflexivity.
Qed.
End Library.

Lemma no_codec_is_not_fatal_witness :
  exists s',
    main Samples.no_codec (initial 0%nat) = Done EXIT_SUCCESS s' /\
    recorded (out s') =
      [("SUPPORTED" ++ nl ++ "FALSE" ++ nl ++ "HWCODECS" ++ nl ++ "0" ++ nl)%string] /\
    written (out s') = recorded (out s') /\
    List.length (filter is_create (events s')) = 4%nat /\
    filter is_teardown (events s') = [].
Proof.
  apply (no_codec_is_not_fatal Samples.no_codec 0%nat).
  - simpl. lia.
  - reflexivity.
  - intros k Hk. destruct k as [|[|[|[|k]]]]; solve [reflexivity | lia].
Defined.

Lemma vp9_only_sets_vp9_bit_witness :
  exists s',
    main Samples.vp9_only (initial 0%nat) = Done EXIT_SUCCESS s' /\
    recorded (out s') = [report CODEC_HW_VP9] /\
    report CODEC_HW_VP9 =
      ("SUPPORTED" ++ nl ++ "TRUE" ++ nl ++ "HWCODECS" ++ nl ++ "64" ++ nl)%string /\
    CODEC_HW_VP9 = Z.shiftl 1 6 /\
    filter is_teardown (events s') = [EvReset 500 1002; EvDestroy 1002].
Proof.
  apply (vp9_only_sets_vp9_bit Samples.vp9_only 0%nat).
  - simpl. lia.
  - reflexivity.
  - reflexivity.
  - reflexivity.
  - reflexivity.
  - reflexivity.
  - vm_compute. discriminate.
Defined.

Lemma missing_symbol_is_fatal_witness :
  exists s',
    main Samples.no_init_symbol (initial 0%nat) = Done EXIT_FAILURE s' /\
    recorded (out s') = [("ERROR" ++ nl ++ "Can not bind " ++ "MppInit" ++ nl)%string] /\
    written (out s') = recorded (out s') /\
    events s' =
      EvDlopen "librockchip_mpp.so" ::
      [EvDlsym 100 "mpp_create"; EvDlsym 100 "mpp_check_support_format";
       EvDlsym 100 "mpp_init"] ++ [EvDlclose 100] /\
    filter is_dlclose (events s') = [EvDlclose 100] /\
    filter is_codec_call (events s') = [].
Proof.
  apply (missing_symbol_is_fatal Samples.no_init_symbol 0%nat "mpp_init" "MppInit").
  - simpl. lia.
  - reflexivity.
Defined.

Lemma partial_failure_leaks_context_witness :
  (exists s' evs,
     probe_codec Samples.no_codec 0 0 (initial 0%nat) = Done 0 s' /\
     (forall rest,
        for_codecs Samples.no_codec (0%nat :: rest) 0 (initial 0%nat) =
        for_codecs Samples.no_codec rest 0 s') /\
     events s' = [] ++ EvCreate :: evs /\
     (evs = [EvCheck MPP_CTX_DEC MPP_VIDEO_CodingAVC] \/
      evs = [EvCheck MPP_CTX_DEC MPP_VIDEO_CodingAVC;
             EvInit 1000 MPP_CTX_DEC MPP_VIDEO_CodingAVC]) /\
     (forall c, ~ In (EvDestroy c) evs)) /\
  (codec_ok Samples.vp9_only (nth 2 mppcodings 0) 2%nat = true /\
   1002 = created_ctx Samples.vp9_only 2%nat /\
   CODEC_HW_VP9 = Z.lor 0 (nth 2 hwaccels 0)).
Proof.
  split.
  - apply (proj1 (partial_failure_leaks_context Samples.no_codec 0 0 (initial 0%nat)));
      reflexivity.
  - eapply (proj2 (partial_failure_leaks_context Samples.vp9_only 2 0 (initial 2%nat))
              CODEC_HW_VP9 _
              [EvCreate; EvCheck 0 10; EvInit 1002 0 10; EvReset 500 1002; EvDestroy 1002] 1002).
    + vm_compute; reflexivity.
    + reflexivity.
    + simpl. do 4 right. left. reflexivity.
Defined.
End MppFacts.

(** ** Facts about both probes *)

Module Probers.
Import GfxInfoUtils.

Lemma lookups_keep_handle handle symbol entries :
  filter MppTest.is_dlclose (MppTest.lookups_until handle symbol entries) = [].
Proof.
  induction entries as [|[sym name] rest IH]; [reflexivity|].
  simpl. destruct (String.eqb sym symbol); [reflexivity|exact IH].
Qed.

Lemma not_missing_none {L : Type} (w : MppTest.world L) :
  existsb (MppTest.missing w) MppTest.required = false ->
  find (MppTest.missing w) MppTest.required = None.
Proof.
  intros H. destruct (find (MppTest.missing w) MppTest.required) as [entry|] eqn:E;
    [|reflexivity].
  apply find_some in E. destruct E as [Hin Hmiss].
  assert (Hex : existsb (MppTest.missing w) MppTest.required = true)
    by (apply existsb_exists; exists entry; now split).
  congruence.
Qed.

Lemma missing_some {L : Type} (w : MppTest.world L) :
  existsb (MppTest.missing w) MppTest.required = true ->
  exists symbol name,
    find (MppTest.missing w) MppTest.required = Some (symbol, name).
Proof.
  intros H. destruct (find (MppTest.missing w) MppTest.required) as [[symbol name]|] eqn:E.
  - now exists symbol, name.
  - apply existsb_exists in H. destruct H as (entry & Hin & Hmiss).
    pose proof (find_none _ _ E entry Hin). congruence.
Qed.

(** The three ways [main] of mpptest can go, by what the loader answers. *)
Lemma mpp_main_cases {L : Type} (w : MppTest.world L) l :
  (MppTest.unavailable w = true /\
   exists msg evs,
     MppTest.main w (MppTest.initial l) =
       Done EXIT_FAILURE (MppTest.failed w msg evs l) /\
     filter MppTest.is_dlclose evs = []) \/
  (MppTest.unavailable w = false /\
   MppTest.dlopen_ret w <> 0 /\
   MppTest.main w (MppTest.initial l) =
     match MppTest.for_codecs w (seq 0 4) 0 (MppTest.start w l) with
     | Done supported s => Done EXIT_SUCCESS (MppTest.finish supported s)
     | Undefined => Undefined
     | OutOfFuel => OutOfFuel
     end).
Proof.
  unfold MppTest.unavailable.
  destruct (MppTest.dlopen_ret w =? 0) eqn:Hh.
  - left. split; [reflexivity|]. apply Z.eqb_eq in Hh.
    exists "Can not load mpp library"%string, []. split; [|reflexivity].
    now apply MppFacts.main_not_loaded.
  - apply Z.eqb_neq in Hh. cbn [orb].
    destruct (existsb (MppTest.missing w) MppTest.required) eqn:Hex.
    + left. split; [reflexivity|].
      destruct (missing_some w Hex) as (symbol & name & Hfind).
      eexists; eexists. split.
      * now apply (MppFacts.main_missing w l symbol name).
      * apply lookups_keep_handle.
    + right. split; [reflexivity|]. split; [exact Hh|].
      apply MppFacts.main_loaded; [exact Hh|now apply not_missing_none].
Qed.

Lemma v4l2_main_exit dev fuel device s code s' :
  V4L2Test.main dev fuel device s = Done code s' -> code = 0.
Proof.
  unfold V4L2Test.main, V4L2Test.record_flush, GfxInfoUtils.record_flush,
    V4L2Test.PrintUsage, bind, ret, modify.
  destruct device as [path|].
  - destruct (V4L2Test.v4l2_check_device dev fuel path s); [|discriminate|discriminate].
    now intros [= <- _].
  - now intros [= <- _].
Qed.

Lemma v4l2_main_open_failure dev fuel path s :
  V4L2Test.open_ret dev < 0 ->
  exit_status (V4L2Test.main dev fuel (Some path) s) = Some 0.
Proof.
  intros Hopen.
  unfold V4L2Test.main, V4L2Test.v4l2_check_device, V4L2Test.record_flush,
    GfxInfoUtils.record_flush, V4L2Test.record_error, V4L2Test.sys_open,
    V4L2Test.autoRelease, V4L2Test.called, bind, ret, modify.
  cbn [V4L2Test.out V4L2Test.calls].
  assert (Hlt : (V4L2Test.open_ret dev <? 0) = true) by now apply Z.ltb_lt.
  assert (Hle : (0 <=? V4L2Test.open_ret dev) = false) by (apply Z.leb_gt; lia).
  rewrite Hlt, Hle.
  match goal with
  | |- context [GfxInfoUtils.record_error ?g ?p ?fmt ?args ?s1] =>
      destruct (PipeFacts.record_error_defined g p fmt args s1) as [msg E];
      [ let H := fresh in intro H; vm_compute in H; discriminate H
      | rewrite E; clear E ]
  end.
  reflexivity.
Qed.

(** C9: every run of either probe that returns has released the handle
    it acquired exactly once, as its last external call, and has released
    nothing if it acquired none.  In v4l2test the calls made are the
    [open], calls that close nothing, and the [close] owed for the
    descriptor; in mpptest they are the [dlopen], calls that unload
    nothing, and the [dlclose] owed for the handle. *)
Theorem handle_released_exactly_once {L : Type}
    (dev : V4L2Test.device) (fuel : nat) (path : string) (s : V4L2Test.state)
    (w : MppTest.world L) (l : L) :
  (forall s',
     V4L2Test.v4l2_check_device dev fuel path s = Done tt s' ->
     exists middle,
       V4L2Test.calls s' =
         V4L2Test.calls s ++
         V4L2Test.SysOpen path :: middle ++ V4L2Test.released (V4L2Test.open_ret dev) /\
       filter V4L2Test.is_close middle = []) /\
  (forall code s',
     MppTest.main w (MppTest.initial l) = Done code s' ->
     exists middle,
       MppTest.events s' =
         MppTest.EvDlopen "librockchip_mpp.so" ::
         middle ++ MppTest.unloaded (MppTest.dlopen_ret w) /\
       filter MppTest.is_dlclose middle = []).
Proof.
  split.
  - intros s' Hrun.
    now destruct (V4L2Facts.v4l2_check_device_done dev fuel path s s' Hrun)
      as (_ & _ & Hcalls).
  - intros code s' Hrun.
    destruct (mpp_main_cases w l)
      as [(_ & msg & evs & Hmain & Hevs) | (_ & Hh & Hmain)];
      rewrite Hmain in Hrun.
    + inversion Hrun; subst; clear Hrun. exists evs. split; [reflexivity|exact Hevs].
    + destruct (MppTest.for_codecs w (seq 0 4) 0 (MppTest.start w l))
        as [supported s4| |] eqn:Hloop; try discriminate Hrun.
      inversion Hrun; subst; clear Hrun.
      apply MppFacts.for_codecs_done in Hloop.
      destruct Hloop as (_ & HMpp & evs & Hev & Hcalls).
      unfold MppTest.finish, MppTest.unloaded. cbn [MppTest.events].
      rewrite HMpp, Hev. cbn [MppTest.start MppTest.Mpp MppTest.events].
      apply Z.eqb_neq in Hh. rewrite Hh.
      exists (map (fun entry => MppTest.EvDlsym (MppTest.dlopen_ret w) (fst entry))
                MppTest.required ++ evs).
      split.
      * cbn [app]. now rewrite <- app_assoc.
      * rewrite filter_app, (MppFacts.codec_call_not_dlclose evs Hcalls). reflexivity.
Qed.

Lemma handle_released_exactly_once_witness :
  (exists s',
     V4L2Test.v4l2_check_device Samples.decoder 2 Samples.video10 V4L2Test.initial =
       Done tt s' /\
     exists middle,
       V4L2Test.calls s' =
         [] ++ V4L2Test.SysOpen Samples.video10 :: middle ++ [V4L2Test.SysClose 3] /\
       filter V4L2Test.is_close middle = []) /\
  (exists s',
     MppTest.main Samples.no_init_symbol (MppTest.initial 0%nat) =
       Done EXIT_FAILURE s' /\
     exists middle,
       MppTest.events s' =
         MppTest.EvDlopen "librockchip_mpp.so" :: middle ++ [MppTest.EvDlclose 100] /\
       filter MppTest.is_dlclose middle = []).
Proof.
  split.
  - eexists. split; [vm_compute; reflexivity|].
    apply (proj1 (handle_released_exactly_once Samples.decoder 2 Samples.video10
                    V4L2Test.initial Samples.no_init_symbol 0%nat)).
    vm_compute; reflexivity.
  - eexists. split; [vm_compute; reflexivity|].
    apply (proj2 (handle_released_exactly_once Samples.decoder 2 Samples.video10
                    V4L2Test.initial Samples.no_init_symbol 0%nat) EXIT_FAILURE).
    vm_compute; reflexivity.
Defined.

(** C4, as the code has it: mpptest exits with EXIT_FAILURE, which is not
    0, whenever the library cannot be loaded or an entry point cannot be
    resolved, and with 0 whenever it returns after probing; v4l2test
    exits with 0 on every run that returns, and it does return with 0
    when the device node cannot be opened. *)
Theorem exit_status_policy {L : Type}
    (w : MppTest.world L) (l : L)
    (dev : V4L2Test.device) (fuel : nat) (path : string) (device : option string)
    (s : V4L2Test.state) :
  (MppTest.unavailable w = true ->
   exit_status (MppTest.main w (MppTest.initial l)) = Some EXIT_FAILURE /\
   EXIT_FAILURE <> 0) /\
  (MppTest.unavailable w = false ->
   forall code s',
     MppTest.main w (MppTest.initial l) = Done code s' -> code = 0) /\
  (V4L2Test.open_ret dev < 0 ->
   exit_status (V4L2Test.main dev fuel (Some path) s) = Some 0) /\
  (forall code s', V4L2Test.main dev fuel device s = Done code s' -> code = 0).
Proof.
  split; [|split; [|split]].
  - intros Hun.
    destruct (mpp_main_cases w l)
      as [(_ & msg & evs & Hmain & _) | (Hav & _)]; [|congruence].
    rewrite Hmain. split; [reflexivity|discriminate].
  - intros Hav code s' Hrun.
    destruct (mpp_main_cases w l)
      as [(Hun & _) | (_ & _ & Hmain)]; [congruence|].
    rewrite Hmain in Hrun.
    destruct (MppTest.for_codecs w (seq 0 4) 0 (MppTest.start w l));
      try discriminate Hrun.
    now inversion Hrun.
  - apply v4l2_main_open_failure.
  - apply v4l2_main_exit.
Qed.

Lemma exit_status_policy_witness :
  (exit_status (MppTest.main Samples.no_init_symbol (MppTest.initial 0%nat)) =
     Some EXIT_FAILURE /\ EXIT_FAILURE <> 0) /\
  (exists s',
     MppTest.main Samples.vp9_only (MppTest.initial 0%nat) = Done EXIT_SUCCESS s' /\
     EXIT_SUCCESS = 0) /\
  exit_status (V4L2Test.main Samples.absent 0 (Some Samples.video10) V4L2Test.initial) =
    Some 0.
Proof.
  split; [|split].
  - apply (proj1 (exit_status_policy Samples.no_init_symbol 0%nat Samples.absent 0
                    Samples.video10 None V4L2Test.initial)).
    reflexivity.
  - eexists. split; [vm_compute; reflexivity|].
    eapply (proj1 (proj2 (exit_status_policy Samples.vp9_only 0%nat Samples.absent 0
                            Samples.video10 None V4L2Test.initial))).
    + reflexivity.
    + vm_compute; reflexivity.
  - apply (proj1 (proj2 (proj2 (exit_status_policy Samples.no_init_symbol 0%nat
                                  Samples.absent 0 Samples.video10 None
                                  V4L2Test.initial)))).
    simpl. lia.
Defined.

(** C4, against the claim: the device node cannot be opened, and v4l2test
    records the error and exits with status 0. *)
Lemma open_failure_exits_with_zero :
  V4L2Test.open_ret Samples.absent < 0 /\
  V4L2Test.main Samples.absent 0 (Some Samples.video10) V4L2Test.initial =
  Done 0
    (V4L2Test.mkState
       (mkPipe
          [("ERROR" ++ nl ++
            "V4L2 failed to open device /dev/video10: No such file or directory" ++
            nl)%string]
          [("ERROR" ++ nl ++
            "V4L2 failed to open device /dev/video10: No such file or directory" ++
            nl)%string])
       [V4L2Test.SysOpen Samples.video10]).
Proof. split; [simpl; lia|reflexivity]. Qed.
End Probers.

(** ** Further facts about v4l2test *)

Module V4L2Extras.
Import GfxInfoUtils V4L2Test.

Lemma append_empty_r (s : string) : (s ++ "")%string = s.
Proof. induction s as [|c s IH]; [reflexivity|]. cbn [append]. now rewrite IH. Qed.

Lemma open_message path err :
  vformat "V4L2 failed to open device %s: %s" [VaStr path; VaStr err] =
  Some ("V4L2 failed to open device " ++ path ++ ": " ++ err)%string.
Proof. cbn. now rewrite append_empty_r. Qed.

Ltac probe_steps :=
  unfold v4l2_check_device, record_error, record_value, sys_open, ioctl_querycap,
    autoRelease, sys_close, called, bind, ret, modify;
  cbn [out calls].

Ltac error_is msg :=
  match goal with
  | |- context [GfxInfoUtils.record_error out set_out ?fmt ?args ?s1] =>
      rewrite (PipeFacts.record_error_done out set_out fmt args msg s1)
        by reflexivity
  end;
  cbn [out calls set_out recorded written].

Section Device.
Variable dev : device.

(** X1: when [open] fails, the probe records one ERROR value made of the
    path and the text of [strerror(errno)], and returns.  The [open] is the
    only call it has made: no query, and no [close] of the descriptor it
    never got. *)
Theorem open_failure_ends_probe fuel path s :
  open_ret dev < 0 ->
  v4l2_check_device dev fuel path s =
  Done tt
    (mkState
       (mkPipe
          (recorded (out s) ++
           [("ERROR" ++ nl ++
             ("V4L2 failed to open device " ++ path ++ ": " ++ open_strerror dev) ++
             nl)%string])
          (written (out s)))
       (calls s ++ [SysOpen path])).
Proof.
  intros Hopen. probe_steps.
  assert (Hlt : (open_ret dev <? 0) = true) by now apply Z.ltb_lt.
  assert (Hle : (0 <=? open_ret dev) = false) by (apply Z.leb_gt; lia).
  rewrite Hlt, Hle.
  rewrite (PipeFacts.record_error_done out set_out _ _ _ _
             (open_message path (open_strerror dev))).
  reflexivity.
Qed.

(** X2: when the device opens and VIDIOC_QUERYCAP fails, the probe records
    the query-capabilities error and returns after closing the descriptor;
    it has made no other call. *)
Theorem querycap_failure_ends_probe fuel path s :
  0 <= open_ret dev ->
  querycap_ret dev < 0 ->
  v4l2_check_device dev fuel path s =
  Done tt
    (rejected dev path ("V4L2 device " ++ path ++ " failed to query capabilities") [] s).
Proof.
  intros Hopen Hcap. probe_steps. unfold rejected.
  assert (Hlt : (open_ret dev <? 0) = false) by (apply Z.ltb_ge; lia).
  assert (Hle : (0 <=? open_ret dev) = true) by now apply Z.leb_le.
  assert (Hq : (querycap_ret dev <? 0) = true) by now apply Z.ltb_lt.
  rewrite Hlt, Hle, Hq.
  error_is ("V4L2 device " ++ path ++ " failed to query capabilities")%string.
  rewrite <- !app_assoc. reflexivity.
Qed.

(** X3: the three capability tests of an opened device, in the order the
    code makes them.  A driver without DEVICE_CAPS, then a device without
    STREAMING, then a device with neither memory-to-memory mode is turned
    down with its own error; in each case the calls are [open],
    VIDIOC_QUERYCAP and [close], and no format is enumerated. *)
Theorem capability_gates fuel path s :
  0 <= open_ret dev ->
  0 <= querycap_ret dev ->
  (test_bit (capabilities dev) V4L2_CAP_DEVICE_CAPS = false ->
   v4l2_check_device dev fuel path s =
   Done tt
     (rejected dev path ("V4L2 device " ++ path ++ " does not support DEVICE_CAPS")
        [] s)) /\
  (test_bit (capabilities dev) V4L2_CAP_DEVICE_CAPS = true ->
   test_bit (device_caps dev) V4L2_CAP_STREAMING = false ->
   v4l2_check_device dev fuel path s =
   Done tt
     (rejected dev path
        ("V4L2 device " ++ path ++ " does not support V4L2_CAP_STREAMING") [] s)) /\
  (test_bit (capabilities dev) V4L2_CAP_DEVICE_CAPS = true ->
   test_bit (device_caps dev) V4L2_CAP_STREAMING = true ->
   test_bit (device_caps dev) V4L2_CAP_VIDEO_M2M = false ->
   test_bit (device_caps dev) V4L2_CAP_VIDEO_M2M_MPLANE = false ->
   v4l2_check_device dev fuel path s =
   Done tt
     (rejected dev path ("V4L2 device " ++ path ++ " does not support M2M modes")
        [] s)).
Proof.
  intros Hopen Hcap.
  assert (Hlt : (open_ret dev <? 0) = false) by (apply Z.ltb_ge; lia).
  assert (Hle : (0 <=? open_ret dev) = true) by now apply Z.leb_le.
  assert (Hq : (querycap_ret dev <? 0) = false) by (apply Z.ltb_ge; lia).
  unfold rejected. split; [|split].
  - intros H1. probe_steps. rewrite Hlt, Hle, Hq, H1. cbn [negb].
    error_is ("V4L2 device " ++ path ++ " does not support DEVICE_CAPS")%string.
    rewrite <- !app_assoc. reflexivity.
  - intros H1 H2. probe_steps. rewrite Hlt, Hle, Hq, H1, H2. cbn [negb].
    error_is ("V4L2 device " ++ path ++ " does not support V4L2_CAP_STREAMING")%string.
    rewrite <- !app_assoc. reflexivity.
  - intros H1 H2 H3 H4. probe_steps. rewrite Hlt, Hle, Hq, H1, H2, H3, H4.
    cbn [negb andb].
    error_is ("V4L2 device " ++ path ++ " does not support M2M modes")%string.
    rewrite <- !app_assoc. reflexivity.
Qed.

(** X4: on a queue whose query first fails at index [n], the enumeration
    ends within [n + 1] passes: it has queried the indices 0 to [n], each
    once and in order, touched nothing else, and returns what the failing
    query returned. *)
Theorem enumeration_walks_to_first_failure n fuel fd ty s :
  first_failure dev ty n ->
  Z.of_nat n < 2 ^ 32 ->
  (n < fuel)%nat ->
  v4l2_supported_fmts dev fuel fd ty s =
  Done (fst (enum_fmt dev ty (Z.of_nat n)))
       (mkState (out s) (calls s ++ queries fd ty 0 (S n))).
Proof. apply V4L2Facts.v4l2_supported_fmts_run. Qed.

(** X5: an opened device that passes the capability tests has its capture
    queue enumerated, on the multi-planar queue type when it advertises
    M2M_MPLANE and on the single-planar one otherwise.  When that
    enumeration ends, the probe records the capture-format error and closes
    the descriptor; the output queue is not queried. *)
Theorem capture_check_rejects n fuel path s :
  0 <= open_ret dev ->
  0 <= querycap_ret dev ->
  usable dev = true ->
  first_failure dev (capture_queue dev) n ->
  Z.of_nat n < 2 ^ 32 ->
  (n < fuel)%nat ->
  v4l2_check_device dev fuel path s =
  Done tt
    (rejected dev path
       ("V4L2 device " ++ path ++ " does not support NV12 or YV12 capture formats")
       (queries (open_ret dev) (capture_queue dev) 0 (S n)) s).
Proof.
  intros Hopen Hcap Huse Hfirst Hn Hfuel.
  assert (Hlt : (open_ret dev <? 0) = false) by (apply Z.ltb_ge; lia).
  assert (Hle : (0 <=? open_ret dev) = true) by now apply Z.leb_le.
  assert (Hq : (querycap_ret dev <? 0) = false) by (apply Z.ltb_ge; lia).
  unfold usable in Huse.
  apply andb_prop in Huse. destruct Huse as [Huse Hm2m].
  apply andb_prop in Huse. destruct Huse as [Hcaps Hstream].
  assert (Hnone : negb (test_bit (device_caps dev) V4L2_CAP_VIDEO_M2M) &&
                  negb (test_bit (device_caps dev) V4L2_CAP_VIDEO_M2M_MPLANE) = false).
  { destruct (test_bit (device_caps dev) V4L2_CAP_VIDEO_M2M),
             (test_bit (device_caps dev) V4L2_CAP_VIDEO_M2M_MPLANE);
      try reflexivity; discriminate Hm2m. }
  probe_steps. unfold rejected.
  rewrite Hlt, Hle, Hq, Hcaps, Hstream. cbn [negb]. cbv zeta. rewrite Hnone.
  fold (capture_queue dev).
  rewrite (V4L2Facts.v4l2_supported_fmts_run dev n) by assumption.
  destruct Hfirst as [_ Hneg].
  assert (Hle0 : (fst (enum_fmt dev (capture_queue dev) (Z.of_nat n)) <=? 0) = true)
    by (apply Z.leb_le; lia).
  rewrite Hle0.
  error_is ("V4L2 device " ++ path ++
            " does not support NV12 or YV12 capture formats")%string.
  rewrite <- !app_assoc. reflexivity.
Qed.

Lemma endless_loop fuel : forall fd ty index supported s,
  (forall i, 0 <= i < 2 ^ 32 -> 0 <= fst (enum_fmt dev ty i)) ->
  0 <= index < 2 ^ 32 ->
  enum_loop dev fuel fd ty index supported s = OutOfFuel.
Proof.
  induction fuel as [|fuel IH]; intros fd ty index supported s Hall Hi.
  - apply V4L2Facts.enum_loop_O.
  - rewrite V4L2Facts.enum_loop_S.
    pose proof (Hall index Hi) as Hhere.
    destruct (enum_fmt dev ty index) as [result pixelformat]. cbn [fst] in Hhere.
    apply Z.ltb_ge in Hhere. rewrite Hhere.
    apply IH; [exact Hall|]. apply Z.mod_pos_bound. lia.
Qed.

(** X6: the loop has no bound of its own.  On a driver that answers every
    index of a queue, the index wraps around and the enumeration is still
    running after any number of passes. *)
Theorem endless_queue_never_returns fd ty :
  (forall i, 0 <= i < 2 ^ 32 -> 0 <= fst (enum_fmt dev ty i)) ->
  forall fuel s, v4l2_supported_fmts dev fuel fd ty s = OutOfFuel.
Proof.
  intros Hall fuel s. unfold v4l2_supported_fmts.
  apply endless_loop; [exact Hall|lia].
Qed.

(** X7: no run of the probe reaches an operation without defined
    behaviour; in particular the HWCODECS value, which the source hands to a
    string conversion, is never formatted. *)
Theorem probe_is_never_undefined fuel path s :
  v4l2_check_device dev fuel path s <> Undefined.
Proof.
  unfold v4l2_check_device, record_error.
  unfold sys_open, ioctl_querycap, autoRelease, sys_close, called, bind, ret, modify.
  cbn [out calls].
  destruct (open_ret dev <? 0).
  { V4L2Facts.record_err. destruct (0 <=? open_ret dev); discriminate. }
  destruct (querycap_ret dev <? 0).
  { V4L2Facts.record_err. destruct (0 <=? open_ret dev); discriminate. }
  destruct (negb (test_bit (capabilities dev) V4L2_CAP_DEVICE_CAPS)).
  { V4L2Facts.record_err. destruct (0 <=? open_ret dev); discriminate. }
  destruct (negb (test_bit (device_caps dev) V4L2_CAP_STREAMING)).
  { V4L2Facts.record_err. destruct (0 <=? open_ret dev); discriminate. }
  cbv zeta.
  destruct (negb (test_bit (device_caps dev) V4L2_CAP_VIDEO_M2M) &&
            negb (test_bit (device_caps dev) V4L2_CAP_VIDEO_M2M_MPLANE)).
  { V4L2Facts.record_err. destruct (0 <=? open_ret dev); discriminate. }
  match goal with
  | |- context [v4l2_supported_fmts dev fuel ?fd ?ty ?s1] =>
      pose proof (V4L2Facts.enum_loop_defined dev fuel fd ty 0 0 s1) as Hdef;
      destruct (v4l2_supported_fmts dev fuel fd ty s1) as [capture s2| |] eqn:Hcap
  end.
  - apply V4L2Facts.v4l2_supported_fmts_done in Hcap.
    destruct Hcap as (Hneg & _).
    assert (Hle : (capture <=? 0) = true) by (apply Z.leb_le; lia).
    rewrite Hle. V4L2Facts.record_err.
    destruct (0 <=? open_ret dev); discriminate.
  - exfalso. apply Hdef. exact Hcap.
  - discriminate.
Qed.

(** X8: a run of the probe that returns has recorded exactly one more
    value, an ERROR, and has written nothing to the output channel
    itself. *)
Theorem probe_only_reports_errors fuel path s s' :
  v4l2_check_device dev fuel path s = Done tt s' ->
  (exists msg,
     recorded (out s') = recorded (out s) ++ [("ERROR" ++ nl ++ msg ++ nl)%string]) /\
  written (out s') = written (out s).
Proof.
  intros Hrun.
  destruct (V4L2Facts.v4l2_check_device_done dev fuel path s s' Hrun) as (H1 & H2 & _).
  now split.
Qed.

Lemma queries_snoc fd ty k : forall i,
  queries fd ty i (S k) = queries fd ty i k ++ [SysEnumFmt fd ty (i + Z.of_nat k)].
Proof.
  induction k as [|k IH]; intros i.
  - cbn [queries app]. now rewrite Z.add_0_r.
  - change (queries fd ty i (S (S k)))
      with (SysEnumFmt fd ty i :: queries fd ty (i + 1) (S k)).
    rewrite IH. cbn [queries app]. rewrite Nat2Z.inj_succ.
    now replace (i + 1 + Z.of_nat k) with (i + Z.succ (Z.of_nat k)) by lia.
Qed.

Lemma accumulated_range ty k :
  In (accumulated dev ty k) [0; 1; CODEC_HW_H264; Z.lor 1 CODEC_HW_H264].
Proof.
  induction k as [|k IH]; [left; reflexivity|].
  cbn [accumulated]. unfold fmt_switch.
  destruct (_ =? V4L2_PIX_FMT_H264).
  - cbn [In] in IH. destruct IH as [<-|[<-|[<-|[<-|[]]]]]; cbn; auto.
  - destruct (_ =? V4L2_PIX_FMT_NV12); [right; left; reflexivity|].
    destruct (_ =? V4L2_PIX_FMT_YVU420); [right; left; reflexivity|exact IH].
Qed.

(** X9: while the queries succeed, the loop of [v4l2_supported_fmts] is at
    index [k] after [k] passes, having queried the indices below [k] in
    order, and [supported] is the fold of the switch over the formats seen.
    That value is always one of 0, 1, the H264 bit, or both. *)
Theorem accumulator_walk k fd ty s :
  (forall j, 0 <= j < Z.of_nat k -> 0 <= fst (enum_fmt dev ty j)) ->
  Z.of_nat k < 2 ^ 32 ->
  enum_passes dev k fd ty (mkCursor 0 0) s =
    Done (inr (mkCursor (Z.of_nat k) (accumulated dev ty k)))
         (mkState (out s) (calls s ++ queries fd ty 0 k)) /\
  In (accumulated dev ty k) [0; 1; CODEC_HW_H264; Z.lor 1 CODEC_HW_H264].
Proof.
  intros Hok Hk. split; [|apply accumulated_range].
  induction k as [|k IH].
  - cbn [enum_passes queries]. unfold ret. rewrite app_nil_r. now destruct s.
  - rewrite V4L2Facts.enum_passes_snoc, IH by (try lia; intros j Hj; apply Hok; lia).
    unfold enum_pass, ioctl_enum_fmt, called, bind, ret, modify.
    cbn [V4L2Test.index V4L2Test.supported out calls].
    assert (Hhere : 0 <= fst (enum_fmt dev ty (Z.of_nat k))) by (apply Hok; lia).
    cbn [accumulated].
    destruct (enum_fmt dev ty (Z.of_nat k)) as [result pixelformat].
    cbn [fst snd] in *. apply Z.ltb_ge in Hhere. rewrite Hhere.
    rewrite Z.mod_small by lia.
    rewrite queries_snoc, <- app_assoc, Nat2Z.inj_succ.
    reflexivity.
Qed.

(** X10: [main] of v4l2test, given a device, flushes once: when it
    returns, the output channel has received one block, the ERROR value the
    probe recorded, and the exit status is EXIT_SUCCESS. *)
Theorem main_writes_the_error fuel path code s' :
  main dev fuel (Some path) initial = Done code s' ->
  code = EXIT_SUCCESS /\
  exists msg,
    recorded (out s') = [("ERROR" ++ nl ++ msg ++ nl)%string] /\
    written (out s') = [("ERROR" ++ nl ++ msg ++ nl)%string].
Proof.
  unfold main, record_flush, GfxInfoUtils.record_flush, bind, ret, modify.
  destruct (v4l2_check_device dev fuel path initial) as [[] s1| |] eqn:Hrun;
    try discriminate.
  intros [= <- <-]. split; [reflexivity|].
  destruct (V4L2Facts.v4l2_check_device_done dev fuel path initial s1 Hrun)
    as ((msg & Hrec) & Hwr & _).
  exists msg. cbn [out set_out recorded written].
  rewrite Hrec, Hwr. split; reflexivity.
Qed.
End Device.

Lemma open_failure_ends_probe_witness :
  v4l2_check_device Samples.absent 0 Samples.video10 initial =
  Done tt
    (mkState
       (mkPipe
          ([] ++
           [("ERROR" ++ nl ++
             ("V4L2 failed to open device " ++ Samples.video10 ++ ": " ++
              "No such file or directory") ++ nl)%string])
          [])
       ([] ++ [SysOpen Samples.video10])).
Proof.
  apply (open_failure_ends_probe Samples.absent 0 Samples.video10 initial).
  simpl. lia.
Defined.

Lemma querycap_failure_ends_probe_witness :
  v4l2_check_device Samples.stalled 0 Samples.video10 initial =
  Done tt
    (rejected Samples.stalled Samples.video10
       ("V4L2 device " ++ Samples.video10 ++ " failed to query capabilities") []
       initial).
Proof.
  apply (querycap_failure_ends_probe Samples.stalled 0 Samples.video10 initial);
    simpl; lia.
Defined.

Lemma capability_gates_witness :
  v4l2_check_device Samples.legacy 0 Samples.video10 initial =
    Done tt
      (rejected Samples.legacy Samples.video10
         ("V4L2 device " ++ Samples.video10 ++ " does not support DEVICE_CAPS")
         [] initial) /\
  v4l2_check_device Samples.no_streaming 0 Samples.video10 initial =
    Done tt
      (rejected Samples.no_streaming Samples.video10
         ("V4L2 device " ++ Samples.video10 ++ " does not support V4L2_CAP_STREAMING")
         [] initial) /\
  v4l2_check_device Samples.webcam 0 Samples.video10 initial =
    Done tt
      (rejected Samples.webcam Samples.video10
         ("V4L2 device " ++ Samples.video10 ++ " does not support M2M modes")
         [] initial).
Proof.
  split; [|split].
  - apply (proj1 (capability_gates Samples.legacy 0 Samples.video10 initial
                    ltac:(simpl; lia) ltac:(simpl; lia))).
    reflexivity.
  - apply (proj1 (proj2 (capability_gates Samples.no_streaming 0 Samples.video10 initial
                           ltac:(simpl; lia) ltac:(simpl; lia))));
      reflexivity.
  - apply (proj2 (proj2 (capability_gates Samples.webcam 0 Samples.video10 initial
                           ltac:(simpl; lia) ltac:(simpl; lia))));
      reflexivity.
Defined.

Lemma enumeration_walks_to_first_failure_witness :
  v4l2_supported_fmts Samples.decoder 2 3 V4L2_BUF_TYPE_VIDEO_CAPTURE_MPLANE initial =
  Done (fst (enum_fmt Samples.decoder V4L2_BUF_TYPE_VIDEO_CAPTURE_MPLANE (Z.of_nat 1)))
       (mkState empty_pipe
          ([] ++ queries 3 V4L2_BUF_TYPE_VIDEO_CAPTURE_MPLANE 0 2)).
Proof.
  apply (enumeration_walks_to_first_failure Samples.decoder 1 2 3
           V4L2_BUF_TYPE_VIDEO_CAPTURE_MPLANE initial).
  - split.
    + intros j Hj. assert (j = 0) by lia. subst j. simpl. lia.
    + simpl. lia.
  - simpl. lia.
  - lia.
Defined.

Lemma capture_check_rejects_witness :
  v4l2_check_device Samples.decoder 2 Samples.video10 initial =
  Done tt
    (rejected Samples.decoder Samples.video10
       ("V4L2 device " ++ Samples.video10 ++
        " does not support NV12 or YV12 capture formats")
       (queries 3 V4L2_BUF_TYPE_VIDEO_CAPTURE_MPLANE 0 2) initial).
Proof.
  apply (capture_check_rejects Samples.decoder 1 2 Samples.video10 initial).
  - simpl. lia.
  - simpl. lia.
  - reflexivity.
  - split.
    + intros j Hj. assert (j = 0) by lia. subst j. simpl. lia.
    + simpl. lia.
  - simpl. lia.
  - lia.
Defined.

Lemma endless_queue_never_returns_witness :
  v4l2_supported_fmts Samples.endless 5 3 V4L2_BUF_TYPE_VIDEO_CAPTURE initial = OutOfFuel.
Proof.
  apply (endless_queue_never_returns Samples.endless 3 V4L2_BUF_TYPE_VIDEO_CAPTURE).
  intros i Hi. simpl. lia.
Defined.

Lemma probe_only_reports_errors_witness :
  exists s',
    v4l2_check_device Samples.decoder 2 Samples.video10 initial = Done tt s' /\
    (exists msg, recorded (out s') = [] ++ [("ERROR" ++ nl ++ msg ++ nl)%string]) /\
    written (out s') = [].
Proof.
  eexists. split; [vm_compute; reflexivity|].
  apply (probe_only_reports_errors Samples.decoder 2 Samples.video10 initial).
  vm_compute; reflexivity.
Defined.

Lemma accumulator_walk_witness :
  enum_passes Samples.mixed 2 3 V4L2_BUF_TYPE_VIDEO_OUTPUT (mkCursor 0 0) initial =
    Done (inr (mkCursor (Z.of_nat 2)
                 (accumulated Samples.mixed V4L2_BUF_TYPE_VIDEO_OUTPUT 2)))
         (mkState empty_pipe ([] ++ queries 3 V4L2_BUF_TYPE_VIDEO_OUTPUT 0 2)) /\
  In (accumulated Samples.mixed V4L2_BUF_TYPE_VIDEO_OUTPUT 2)
     [0; 1; CODEC_HW_H264; Z.lor 1 CODEC_HW_H264].
Proof.
  apply (accumulator_walk Samples.mixed 2 3 V4L2_BUF_TYPE_VIDEO_OUTPUT initial).
  - intros j Hj. assert (j = 0 \/ j = 1) as [-> | ->] by lia; simpl; lia.
  - simpl. lia.
Defined.

Lemma main_writes_the_error_witness :
  exists s',
    main Samples.decoder 2 (Some Samples.video10) initial = Done EXIT_SUCCESS s' /\
    EXIT_SUCCESS = EXIT_SUCCESS /\
    exists msg,
      recorded (out s') = [("ERROR" ++ nl ++ msg ++ nl)%string] /\
      written (out s') = [("ERROR" ++ nl ++ msg ++ nl)%string].
Proof.
  eexists. split; [vm_compute; reflexivity|].
  apply (main_writes_the_error Samples.decoder 2 Samples.video10).
  vm_compute; reflexivity.
Defined.
End V4L2Extras.

(** ** Further facts about mpptest *)

Module MppExtras.
Import GfxInfoUtils MppTest.

Section Library.
Context {L : Type}.
Variable w : world L.

(** One pass, in full: what it returns, the calls it adds and the state in
    which it leaves the library, for a pass that does not go through a null
    table. *)
Lemma probe_codec_exact i supported s :
  (codec_ok w (nth i mppcodings 0) (lib s) = true -> created_mpi w (lib s) <> 0) ->
  probe_codec w i supported s =
  Done (Z.lor supported (flag (codec_ok w (nth i mppcodings 0) (lib s)) (nth i hwaccels 0)))
       (mkState (out s) (events s ++ pass_calls w i (lib s))
          (lib_step w i (lib s)) (Mpp s)).
Proof.
  unfold codec_ok, lib_step, pass_calls, created_mpi, flag. MppFacts.lib_calls.
  destruct (mpp_create w (lib s)) as [[[rc ctx] mpi] l1].
  destruct (rc =? 0); MppFacts.tidy.
  2:{ intros _. now rewrite Z.lor_0_r. }
  destruct (mpp_check_support_format w MPP_CTX_DEC (nth i mppcodings 0) l1)
    as [rc2 l2].
  destruct (rc2 =? 0); MppFacts.tidy.
  2:{ intros _. rewrite Z.lor_0_r, <- !app_assoc. reflexivity. }
  destruct (mpp_init w ctx MPP_CTX_DEC (nth i mppcodings 0) l2) as [rc3 l3].
  destruct (rc3 =? 0); MppFacts.tidy.
  2:{ intros _. rewrite Z.lor_0_r, <- !app_assoc. reflexivity. }
  intros Hmpi. specialize (Hmpi eq_refl). apply Z.eqb_neq in Hmpi. rewrite Hmpi.
  MppFacts.tidy.
  destruct (mpi_reset w mpi ctx l3) as [rc4 l4]. MppFacts.tidy.
  destruct (mpp_destroy w ctx l4) as [rc5 l5]. MppFacts.tidy.
  rewrite <- !app_assoc. reflexivity.
Qed.

Lemma pass_calls_shape i l :
  (codec_ok w (nth i mppcodings 0) l = true -> created_mpi w l <> 0) ->
  List.length (filter is_create (pass_calls w i l)) = 1%nat /\
  filter is_teardown (pass_calls w i l) =
    (if codec_ok w (nth i mppcodings 0) l
     then [EvReset (created_mpi w l) (created_ctx w l); EvDestroy (created_ctx w l)]
     else []) /\
  forallb is_codec_call (pass_calls w i l) = true.
Proof.
  unfold codec_ok, pass_calls, created_mpi, created_ctx. MppFacts.lib_calls.
  destruct (mpp_create w l) as [[[rc ctx] mpi] l1].
  destruct (rc =? 0); MppFacts.tidy.
  2:{ intros _. repeat split; reflexivity. }
  destruct (mpp_check_support_format w MPP_CTX_DEC (nth i mppcodings 0) l1)
    as [rc2 l2].
  destruct (rc2 =? 0); MppFacts.tidy.
  2:{ intros _. repeat split; reflexivity. }
  destruct (mpp_init w ctx MPP_CTX_DEC (nth i mppcodings 0) l2) as [rc3 l3].
  destruct (rc3 =? 0); MppFacts.tidy.
  2:{ intros _. repeat split; reflexivity. }
  intros Hmpi. specialize (Hmpi eq_refl). apply Z.eqb_neq in Hmpi. rewrite Hmpi.
  MppFacts.tidy.
  destruct (mpi_reset w mpi ctx l3) as [rc4 l4]. MppFacts.tidy.
  destruct (mpp_destroy w ctx l4) as [rc5 l5]. MppFacts.tidy.
  repeat split; reflexivity.
Qed.

(** The passes for candidates [a], ..., [a + n - 1], none of which goes
    through a null table. *)
Lemma for_codecs_exact l : forall n a supported s,
  lib s = lib_before w a l ->
  (forall k, (a <= k < a + n)%nat ->
     accepted w k l = true -> created_mpi w (lib_before w k l) <> 0) ->
  for_codecs w (seq a n) supported s =
  Done (passes_mask w l a n supported)
       (mkState (out s) (events s ++ passes_calls w l a n)
          (lib_before w (a + n) l) (Mpp s)).
Proof.
  induction n as [|n IH]; intros a supported s Hlib Htab.
  - cbn [seq for_codecs passes_mask passes_calls]. unfold ret.
    rewrite Nat.add_0_r, app_nil_r, <- Hlib. now destruct s.
  - cbn [seq for_codecs passes_mask passes_calls]. unfold bind.
    rewrite probe_codec_exact
      by (rewrite Hlib; apply (Htab a); lia).
    rewrite IH.
    + cbn [out events lib Mpp]. unfold accepted.
      rewrite Hlib, <- app_assoc, Nat.add_succ_r. reflexivity.
    + cbn [lib lib_before]. now rewrite Hlib.
    + intros k Hk. apply Htab. lia.
Qed.

(** What a pass that returns has done. *)
Lemma probe_codec_returns i supported s r s' :
  probe_codec w i supported s = Done r s' ->
  r = Z.lor supported (flag (codec_ok w (nth i mppcodings 0) (lib s)) (nth i hwaccels 0)) /\
  s' = mkState (out s) (events s ++ pass_calls w i (lib s)) (lib_step w i (lib s)) (Mpp s) /\
  (codec_ok w (nth i mppcodings 0) (lib s) = true -> created_mpi w (lib s) <> 0).
Proof.
  intros Hrun.
  assert (Htab : codec_ok w (nth i mppcodings 0) (lib s) = true ->
                 created_mpi w (lib s) <> 0).
  { intros Hok Hnull.
    rewrite (MppFacts.probe_codec_null_table w i supported s Hok Hnull) in Hrun.
    discriminate Hrun. }
  rewrite (probe_codec_exact i supported s Htab) in Hrun.
  inversion Hrun; subst. split; [reflexivity|]. split; [reflexivity|exact Htab].
Qed.

Lemma flag_in_bits set i :
  Z.land (flag set (nth i hwaccels 0)) codec_bits = flag set (nth i hwaccels 0).
Proof.
  destruct set; [|reflexivity].
  destruct i as [|[|[|[|[|i]]]]]; reflexivity.
Qed.

Lemma for_codecs_returns indices : forall supported s r s',
  for_codecs w indices supported s = Done r s' ->
  out s' = out s /\ Mpp s' = Mpp s /\
  (Z.land supported codec_bits = supported -> Z.land r codec_bits = r) /\
  exists evs,
    events s' = events s ++ evs /\
    List.length (filter is_create evs) = List.length indices /\
    forallb is_codec_call evs = true.
Proof.
  induction indices as [|i rest IH]; intros supported s r s' Hrun.
  - inversion Hrun; subst. repeat split; try reflexivity; try tauto.
    exists []. now rewrite app_nil_r.
  - cbn [for_codecs] in Hrun. unfold bind in Hrun.
    destruct (probe_codec w i supported s) as [r1 s1| |] eqn:Hpass;
      try discriminate Hrun.
    apply probe_codec_returns in Hpass. destruct Hpass as (-> & -> & Htab).
    apply IH in Hrun. cbn [out events lib Mpp] in Hrun.
    destruct Hrun as (Hout & HMpp & Hbits & evs & Hev & Hcreate & Hcalls).
    destruct (pass_calls_shape i (lib s) Htab) as (Hone & _ & Hpc).
    split; [exact Hout|]. split; [exact HMpp|]. split.
    + intros Hsup. apply Hbits.
      rewrite Z.land_lor_distr_l, Hsup, flag_in_bits. reflexivity.
    + exists (pass_calls w i (lib s) ++ evs). split; [|split].
      * rewrite Hev, <- app_assoc. reflexivity.
      * rewrite filter_app, length_app, Hone, Hcreate. reflexivity.
      * rewrite forallb_app, Hpc, Hcalls. reflexivity.
Qed.

(** X11: when the library cannot be loaded, [main] records the single
    value ERROR "Can not load mpp library", writes it out and returns
    EXIT_FAILURE.  It looks up no symbol and, having no handle, calls
    [dlclose] on nothing. *)
Theorem load_failure_is_fatal l :
  dlopen_ret w = 0 ->
  main w (initial l) =
  Done EXIT_FAILURE
    (mkState
       (mkPipe [("ERROR" ++ nl ++ "Can not load mpp library" ++ nl)%string]
               [("ERROR" ++ nl ++ "Can not load mpp library" ++ nl)%string])
       [EvDlopen "librockchip_mpp.so"] l 0).
Proof.
  intros Hnull. rewrite (MppFacts.main_not_loaded w l Hnull).
  unfold failed, unloaded. rewrite Hnull. reflexivity.
Qed.

(** X12: the bitmask [main] reports.  When the library loads and
    resolves, and every candidate it accepts comes with an operation table,
    [main] returns EXIT_SUCCESS and the one value it records and writes is
    the report of the OR of the bits of exactly the accepted candidates:
    H264 for the first, VP8, VP9 and AV1 for the others. *)
Theorem reported_mask l :
  dlopen_ret w <> 0 ->
  find (missing w) required = None ->
  (forall k, (k < 4)%nat ->
     accepted w k l = true -> created_mpi w (lib_before w k l) <> 0) ->
  exists s',
    main w (initial l) = Done EXIT_SUCCESS s' /\
    recorded (out s') =
      [report (Z.lor (flag (accepted w 0 l) CODEC_HW_H264)
                 (Z.lor (flag (accepted w 1 l) CODEC_HW_VP8)
                    (Z.lor (flag (accepted w 2 l) CODEC_HW_VP9)
                       (flag (accepted w 3 l) CODEC_HW_AV1))))] /\
    written (out s') = recorded (out s').
Proof.
  intros Hh Hsyms Htab. rewrite MppFacts.main_loaded by assumption.
  rewrite (for_codecs_exact l 4 0 0 (start w l)) by (try reflexivity; intros k Hk; apply Htab; lia).
  eexists. split; [reflexivity|].
  unfold finish, start. cbn [out events lib Mpp recorded written empty_pipe app].
  cbn [passes_mask nth hwaccels].
  replace (Z.lor (Z.lor (Z.lor (Z.lor 0 (flag (accepted w 0 l) CODEC_HW_H264))
                            (flag (accepted w 1 l) CODEC_HW_VP8))
                     (flag (accepted w 2 l) CODEC_HW_VP9))
              (flag (accepted w 3 l) CODEC_HW_AV1))
    with (Z.lor (flag (accepted w 0 l) CODEC_HW_H264)
            (Z.lor (flag (accepted w 1 l) CODEC_HW_VP8)
               (Z.lor (flag (accepted w 2 l) CODEC_HW_VP9)
                  (flag (accepted w 3 l) CODEC_HW_AV1))))
    by (destruct (accepted w 0 l), (accepted w 1 l), (accepted w 2 l), (accepted w 3 l);
        reflexivity).
  split; reflexivity.
Qed.

(** X13: under the same conditions, the reset and destroy calls of the
    whole run are, candidate by candidate in loop order, one reset and then
    one destroy on the context created for that candidate if it was
    accepted, and nothing if it was not. *)
Theorem teardown_follows_acceptance l :
  dlopen_ret w <> 0 ->
  find (missing w) required = None ->
  (forall k, (k < 4)%nat ->
     accepted w k l = true -> created_mpi w (lib_before w k l) <> 0) ->
  exists s',
    main w (initial l) = Done EXIT_SUCCESS s' /\
    filter is_teardown (events s') =
      teardown w 0 l ++ teardown w 1 l ++ teardown w 2 l ++ teardown w 3 l.
Proof.
  intros Hh Hsyms Htab. rewrite MppFacts.main_loaded by assumption.
  rewrite (for_codecs_exact l 4 0 0 (start w l)) by (try reflexivity; intros k Hk; apply Htab; lia).
  eexists. split; [reflexivity|].
  unfold finish, start. cbn [out events lib Mpp app map required fst].
  cbn [passes_calls filter is_teardown].
  rewrite !filter_app. cbn [filter is_teardown app].
  destruct (pass_calls_shape 0 (lib_before w 0 l) (Htab 0%nat ltac:(lia))) as (_ & -> & _).
  destruct (pass_calls_shape 1 (lib_before w 1 l) (Htab 1%nat ltac:(lia))) as (_ & -> & _).
  destruct (pass_calls_shape 2 (lib_before w 2 l) (Htab 2%nat ltac:(lia))) as (_ & -> & _).
  destruct (pass_calls_shape 3 (lib_before w 3 l) (Htab 3%nat ltac:(lia))) as (_ & -> & _).
  unfold teardown, accepted. rewrite !app_nil_r. reflexivity.
Qed.

(** X14: whatever the library answers, a run that gets past symbol
    resolution and returns has called create exactly four times: neither a
    failure nor a success of one candidate ends the loop early. *)
Theorem all_candidates_are_tried l code s' :
  main w (initial l) = Done code s' ->
  unavailable w = false ->
  List.length (filter is_create (events s')) = 4%nat.
Proof.
  intros Hrun Hav.
  destruct (Probers.mpp_main_cases w l)
    as [(Hun & _) | (_ & _ & Hmain)]; [congruence|].
  rewrite Hmain in Hrun.
  destruct (for_codecs w (seq 0 4) 0 (start w l)) as [supported s4| |] eqn:Hloop;
    try discriminate Hrun.
  inversion Hrun; subst; clear Hrun.
  apply for_codecs_returns in Hloop.
  destruct Hloop as (_ & _ & _ & evs & Hev & Hcreate & _).
  unfold finish. cbn [events]. rewrite Hev.
  unfold start. cbn [events map required fst].
  rewrite !filter_app, !length_app, Hcreate. reflexivity.
Qed.

(** X15: every run of [main] that returns has recorded one value and
    written it as one block.  With EXIT_FAILURE the block is an ERROR and
    the library was not available; with EXIT_SUCCESS it is a report, and the
    reported bitmask has no bit outside the four codec bits. *)
Theorem one_block_is_written l code s' :
  main w (initial l) = Done code s' ->
  exists block,
    recorded (out s') = [block] /\
    written (out s') = [block] /\
    ((code = EXIT_FAILURE /\ unavailable w = true /\
      exists msg, block = ("ERROR" ++ nl ++ msg ++ nl)%string) \/
     (code = EXIT_SUCCESS /\ unavailable w = false /\
      exists supported,
        block = report supported /\ Z.land supported codec_bits = supported)).
Proof.
  intros Hrun.
  destruct (Probers.mpp_main_cases w l)
    as [(Hun & msg & evs & Hmain & _) | (Hav & _ & Hmain)];
    rewrite Hmain in Hrun.
  - inversion Hrun; subst; clear Hrun.
    eexists. unfold failed. cbn [out recorded written].
    split; [reflexivity|]. split; [reflexivity|].
    left. split; [reflexivity|]. split; [exact Hun|]. now exists msg.
  - destruct (for_codecs w (seq 0 4) 0 (start w l)) as [supported s4| |] eqn:Hloop;
      try discriminate Hrun.
    inversion Hrun; subst; clear Hrun.
    apply for_codecs_returns in Hloop.
    destruct Hloop as (Hout & _ & Hbits & _).
    exists (report supported). unfold finish. cbn [out recorded written].
    rewrite Hout. unfold start. cbn [out recorded written empty_pipe app].
    split; [reflexivity|]. split; [reflexivity|].
    right. split; [reflexivity|]. split; [exact Hav|].
    exists supported. split; [reflexivity|]. now apply Hbits.
Qed.
End Library.

Lemma load_failure_is_fatal_witness :
  main Samples.not_installed (initial 0%nat) =
  Done EXIT_FAILURE
    (mkState
       (mkPipe [("ERROR" ++ nl ++ "Can not load mpp library" ++ nl)%string]
               [("ERROR" ++ nl ++ "Can not load mpp library" ++ nl)%string])
       [EvDlopen "librockchip_mpp.so"] 0%nat 0).
Proof. apply (load_failure_is_fatal Samples.not_installed 0%nat). reflexivity. Defined.

Lemma reported_mask_witness :
  exists s',
    main Samples.h264_vp9 (initial 0%nat) = Done EXIT_SUCCESS s' /\
    recorded (out s') =
      [report (Z.lor (flag true CODEC_HW_H264)
                 (Z.lor (flag false CODEC_HW_VP8)
                    (Z.lor (flag true CODEC_HW_VP9) (flag false CODEC_HW_AV1))))] /\
    written (out s') = recorded (out s').
Proof.
  apply (reported_mask Samples.h264_vp9 0%nat).
  - simpl. lia.
  - reflexivity.
  - intros k Hk _. destruct k as [|[|[|[|k]]]]; [vm_compute; discriminate..|lia].
Defined.

Lemma teardown_follows_acceptance_witness :
  exists s',
    main Samples.h264_vp9 (initial 0%nat) = Done EXIT_SUCCESS s' /\
    filter is_teardown (events s') =
      [EvReset 500 1000; EvDestroy 1000] ++ [] ++ [EvReset 500 1002; EvDestroy 1002] ++ [].
Proof.
  apply (teardown_follows_acceptance Samples.h264_vp9 0%nat).
  - simpl. lia.
  - reflexivity.
  - intros k Hk _. destruct k as [|[|[|[|k]]]]; [vm_compute; discriminate..|lia].
Defined.

Lemma all_candidates_are_tried_witness :
  exists s',
    main Samples.vp9_only (initial 0%nat) = Done EXIT_SUCCESS s' /\
    List.length (filter is_create (events s')) = 4%nat.
Proof.
  eexists. split; [vm_compute; reflexivity|].
  apply (all_candidates_are_tried Samples.vp9_only 0%nat EXIT_SUCCESS).
  - vm_compute; reflexivity.
  - reflexivity.
Defined.

Lemma one_block_is_written_witness :
  exists s' block,
    main Samples.no_init_symbol (initial 0%nat) = Done EXIT_FAILURE s' /\
    recorded (out s') = [block] /\
    written (out s') = [block] /\
    ((EXIT_FAILURE = EXIT_FAILURE /\ unavailable Samples.no_init_symbol = true /\
      exists msg, block = ("ERROR" ++ nl ++ msg ++ nl)%string) \/
     (EXIT_FAILURE = EXIT_SUCCESS /\ unavailable Samples.no_init_symbol = false /\
      exists supported,
        block = report supported /\ Z.land supported codec_bits = supported)).
Proof.
  eexists.
  assert (H : main Samples.no_init_symbol (initial 0%nat) = Done EXIT_FAILURE _)
    by (vm_compute; reflexivity).
  destruct (one_block_is_written Samples.no_init_symbol 0%nat EXIT_FAILURE _ H)
    as (block & Hrec & Hwr & Hkind).
  exists block. repeat split; assumption.
Defined.
End MppExtras.
